(** * examples/server/openai_server.py: the HTTP handlers of the example server

    A shallow embedding of the request handlers of [openai_server.py]
    ([health], [generate], [show_available_models], [chat_completion]) and
    of the Python operations they rely on, followed by the properties of
    the handlers.

    Conventions.
    - A Python [str] is the list of its code points; [bytes] is a list of
      integers in [0, 255].
    - A Python [dict] is an association list in insertion order.
    - A handler is a computation that may raise and that records every call
      of [executor.generate_async] in a log.
    - A handler takes the decoded body, the result of [request.json()].
    - A [JSONResponse] renders its content when it is built, which may
      raise; its body is kept as the value it was built from.
    - The engine and its handles are those of [tensorrt_llm.executor]; they
      enter as data: what a call returns or raises, what the handle yields.

    The handler [stats] only forwards a document of the engine and is left
    out. *)

From Stdlib Require Import ZArith List String Ascii Bool Lia Floats.
Import ListNotations.
Open Scope Z_scope.

#[local] Set Warnings "-register-all".

(** ** Python values *)

Definition str := list Z.
Definition bytes := list Z.

(** A string literal of the source, as a [str] (literals are ASCII). *)
Definition lit (s : string) : str :=
  map (fun a => Z.of_N (N_of_ascii a)) (list_ascii_of_string s).

Fixpoint str_eqb (a b : str) : bool :=
  match a, b with
  | [], [] => true
  | x :: a', y :: b' => (x =? y) && str_eqb a' b'
  | _, _ => false
  end.

(** The values [request.json()] can produce, which are also the values the
    handlers put into a [JSONResponse]. *)
Inductive value : Type :=
| VNone
| VBool (b : bool)
| VInt (n : Z)
| VFloat (f : float)
| VStr (s : str)
| VList (l : list value)
| VDict (d : list (str * value)).

Definition dict := list (str * value).

(** [bool(v)], as used by [if streaming:]. *)
Definition truthy (v : value) : bool :=
  match v with
  | VNone => false
  | VBool b => b
  | VInt n => negb (n =? 0)
  | VFloat f => negb (PrimFloat.eqb f PrimFloat.zero)
  | VStr s => match s with [] => false | _ => true end
  | VList l => match l with [] => false | _ => true end
  | VDict d => match d with [] => false | _ => true end
  end.

(** [v == s] for a [str] literal [s]: only an equal [str] compares equal. *)
Definition eq_str (v : value) (s : str) : bool :=
  match v with
  | VStr t => str_eqb t s
  | _ => false
  end.

(** *** Dictionaries *)

Fixpoint dict_get (k : str) (d : dict) : option value :=
  match d with
  | [] => None
  | (k', v) :: d' => if str_eqb k' k then Some v else dict_get k d'
  end.

Fixpoint dict_remove (k : str) (d : dict) : dict :=
  match d with
  | [] => []
  | (k', v) :: d' => if str_eqb k' k then d' else (k', v) :: dict_remove k d'
  end.

(** [d[k] = v]: an existing key keeps its position, a new key goes last. *)
Fixpoint dict_set (k : str) (v : value) (d : dict) : dict :=
  match d with
  | [] => [(k, v)]
  | (k', v') :: d' =>
      if str_eqb k' k then (k', v) :: d' else (k', v') :: dict_set k v d'
  end.

(** A dict display [{k1: v1, ..., kn: vn}]: the items are stored left to
    right. *)
Definition dict_display (items : list (str * value)) : dict :=
  fold_left (fun d kv => dict_set (fst kv) (snd kv) d) items [].

(** ** Exceptions and the handler monad *)

Inductive exn : Type :=
| AssertionError
| KeyError (k : str)
| TypeError
| AttributeError
| UnicodeEncodeError
| ValueError
| EngineError (msg : str).

(** The keyword arguments of one call of [executor.generate_async]. *)
Definition kwargs := list (str * value).

Definition M (A : Type) : Type := list kwargs -> (exn + A) * list kwargs.

Definition ret {A} (a : A) : M A := fun log => (inr a, log).

Definition raise {A} (e : exn) : M A := fun log => (inl e, log).

Definition bind {A B} (m : M A) (f : A -> M B) : M B :=
  fun log =>
    match m log with
    | (inl e, log') => (inl e, log')
    | (inr a, log') => f a log'
    end.

Definition lift {A} (r : exn + A) : M A := fun log => (r, log).

Notation "x <- m ;; k" := (bind m (fun x => k))
  (at level 61, m at next level, right associativity).
Notation "' p <- m ;; k" := (bind m (fun x => let p := x in k))
  (at level 61, p pattern, m at next level, right associativity).

(** *** Operations on values, with the exceptions Python raises *)

(** [v.pop(k, default)]: defined on dicts only; a list has a [pop] of
    another arity, the other values have none.  The dict is updated in
    place, so the updated value is returned as well. *)
Definition py_pop (v : value) (k : str) (default : value) : M (value * value) :=
  match v with
  | VDict d =>
      match dict_get k d with
      | Some x => ret (x, VDict (dict_remove k d))
      | None => ret (default, VDict d)
      end
  | VList _ => raise TypeError
  | _ => raise AttributeError
  end.

(** [v[k]] for a [str] key [k]. *)
Definition py_getitem (v : value) (k : str) : M value :=
  match v with
  | VDict d =>
      match dict_get k d with
      | Some x => ret x
      | None => raise (KeyError k)
      end
  | _ => raise TypeError
  end.

(** The items [for message in v] goes through: the elements of a list, the
    keys of a dict, the characters of a str. *)
Definition py_iter (v : value) : M (list value) :=
  match v with
  | VList l => ret l
  | VDict d => ret (map (fun kv => VStr (fst kv)) d)
  | VStr s => ret (map (fun c => VStr [c]) s)
  | _ => raise TypeError
  end.

(** ** [json.dumps] of a str and [str.encode("utf-8")] *)

Definition hexdigit (d : Z) : Z := if d <? 10 then 48 + d else 87 + d.

Definition hex4 (c : Z) : str :=
  [hexdigit (Z.land (Z.shiftr c 12) 15); hexdigit (Z.land (Z.shiftr c 8) 15);
   hexdigit (Z.land (Z.shiftr c 4) 15); hexdigit (Z.land c 15)].

(** The characters [json.dumps] copies unchanged (with [ensure_ascii], its
    default): printable ASCII except the quote and the backslash. *)
Definition S_CHAR (c : Z) : bool :=
  (32 <=? c) && (c <=? 126) && negb (c =? 92) && negb (c =? 34).

(** The escape of any other character: a short escape, [\uXXXX], or a
    UTF-16 surrogate pair of two [\uXXXX] above the basic plane. *)
Definition ascii_escape_unichar (c : Z) : str :=
  92 ::
  (if c =? 92 then [92]
   else if c =? 34 then [34]
   else if c =? 8 then [98]
   else if c =? 12 then [102]
   else if c =? 10 then [110]
   else if c =? 13 then [114]
   else if c =? 9 then [116]
   else if 65536 <=? c then
     let v := 55296 - Z.shiftr 65536 10 + Z.shiftr c 10 in
     let c' := 56320 + Z.land c 1023 in
     117 :: hex4 v ++ 92 :: 117 :: hex4 c'
   else 117 :: hex4 c).

Definition escape_char (c : Z) : str :=
  if S_CHAR c then [c] else ascii_escape_unichar c.

(** [json.dumps(s)] for a str [s]. *)
Definition json_dumps (s : str) : str :=
  34 :: flat_map escape_char s ++ [34].

(** UTF-8 of one code point; a surrogate cannot be encoded. *)
Definition utf8_char (c : Z) : option bytes :=
  if c <? 128 then Some [c]
  else if c <? 2048 then
    Some [Z.lor 192 (Z.shiftr c 6); Z.lor 128 (Z.land c 63)]
  else if (55296 <=? c) && (c <=? 57343) then None
  else if c <? 65536 then
    Some [Z.lor 224 (Z.shiftr c 12); Z.lor 128 (Z.land (Z.shiftr c 6) 63);
          Z.lor 128 (Z.land c 63)]
  else
    Some [Z.lor 240 (Z.shiftr c 18); Z.lor 128 (Z.land (Z.shiftr c 12) 63);
          Z.lor 128 (Z.land (Z.shiftr c 6) 63); Z.lor 128 (Z.land c 63)].

(** [s.encode("utf-8")]. *)
Fixpoint encode_utf8 (s : str) : exn + bytes :=
  match s with
  | [] => inr []
  | c :: s' =>
      match utf8_char c, encode_utf8 s' with
      | Some b, inr bs => inr (b ++ bs)
      | None, _ => inl UnicodeEncodeError
      | _, inl e => inl e
      end
  end.

(** ** The engine and the responses *)

(** The handle [generate_async] returns, as the handlers use it: the
    [.text] of each output its asynchronous iteration yields, what
    [await_completion()] does ([None]: it returns), and its [.text]
    afterwards. *)
Record Promise : Type := {
  outputs : list str;
  await_completion : option exn;
  text : str
}.

Record GenerationExecutor : Type := {
  generate_async : kwargs -> exn + Promise
}.

(** The module state a handler reads: the global [executor] and the clock
    behind [time.time()]. *)
Record Server : Type := {
  executor : option GenerationExecutor;
  time_time : float
}.

Inductive body : Type :=
| Empty
| Json (content : value)
| Chunked (chunks : list bytes) (failure : option exn).

Record Response : Type := {
  status_code : Z;
  content : body
}.

(** [Response(status_code=c)] and [StreamingResponse(gen)]; the second has
    the default status 200 and does not touch its generator. *)
Definition PlainResponse (c : Z) : Response :=
  {| status_code := c; content := Empty |}.

Definition StreamingResponse (gen : list bytes * option exn) : Response :=
  {| status_code := 200; content := Chunked (fst gen) (snd gen) |}.

(** [JSONResponse(v)] renders [v] in its constructor, as
    [json.dumps(v, ensure_ascii=False, allow_nan=False, ...)] followed by
    [.encode("utf-8")].  With [allow_nan=False], [json.dumps] raises
    ValueError on a float that is a NaN or an infinity; with
    [ensure_ascii=False] it copies the characters of every str, key or
    value, so that the encoding raises UnicodeEncodeError when one of them
    is a surrogate.  [json.dumps] runs to its end before the encoding
    starts. *)
Fixpoint floats_finite (v : value) : bool :=
  match v with
  | VFloat f => PrimFloat.is_finite f
  | VList l => forallb floats_finite l
  | VDict d => forallb (fun kv => floats_finite (snd kv)) d
  | _ => true
  end.

Definition encodable (s : str) : bool :=
  match encode_utf8 s with
  | inr _ => true
  | inl _ => false
  end.

Fixpoint strs_encodable (v : value) : bool :=
  match v with
  | VStr s => encodable s
  | VList l => forallb strs_encodable l
  | VDict d =>
      forallb (fun kv => encodable (fst kv) && strs_encodable (snd kv)) d
  | _ => true
  end.

Definition render (v : value) : M unit :=
  if negb (floats_finite v) then raise ValueError
  else if negb (strs_encodable v) then raise UnicodeEncodeError
  else ret tt.

(** The response has the default status 200. *)
Definition JSONResponse (v : value) : M Response :=
  _ <- render v ;;
  ret {| status_code := 200; content := Json v |}.

(** [assert executor is not None]. *)
Definition assert_executor (srv : Server) : M GenerationExecutor :=
  match executor srv with
  | Some e => ret e
  | None => raise AssertionError
  end.

(** A call of [executor.generate_async] with keyword arguments [kw]: the
    call is recorded, raising or not. *)
Definition call_generate_async (e : GenerationExecutor) (kw : kwargs)
  : M Promise :=
  fun log => (generate_async e kw, log ++ [kw]).

(** [await promise.await_completion()]. *)
Definition await (p : Promise) : M unit :=
  match await_completion p with
  | None => ret tt
  | Some e => raise e
  end.

(** ** The handlers *)

(** [GET /health]. *)
Definition health (srv : Server) : M Response :=
  ret (PlainResponse 200).

(** The generator [stream_results] of [generate], run to its end: the
    chunks it yields and the exception that stopped it, if any. *)
Fixpoint stream_results (outs : list str) : list bytes * option exn :=
  match outs with
  | [] => ([], None)
  | output_text :: outs' =>
      match encode_utf8 (json_dumps output_text ++ [0]) with
      | inl e => ([], Some e)
      | inr chunk =>
          let '(chunks, failure) := stream_results outs' in
          (chunk :: chunks, failure)
      end
  end.

(** [POST /generate]. *)
Definition generate (srv : Server) (request_json : value) : M Response :=
  e <- assert_executor srv ;;
  '(streaming, request_dict) <-
     py_pop request_json (lit "streaming") (VBool false) ;;
  prompt <- py_getitem request_dict (lit "prompt") ;;
  max_new_tokens <- py_getitem request_dict (lit "max_new_tokens") ;;
  promise <- call_generate_async e
               [(lit "prompt", prompt);
                (lit "max_new_tokens", max_new_tokens);
                (lit "streaming", streaming)] ;;
  if truthy streaming then
    ret (StreamingResponse (stream_results (outputs promise)))
  else
    _ <- await promise ;;
    JSONResponse (VDict (dict_display [(lit "text", VStr (text promise))])).

(** [GET /v1/models]. *)
Definition show_available_models (srv : Server) : M Response :=
  JSONResponse (VDict (dict_display
    [(lit "object", VStr (lit "list"));
     (lit "data",
      VList [VDict (dict_display
        [(lit "id", VStr (lit "default"));
         (lit "object", VStr (lit "model"));
         (lit "created", VInt 1686935002);
         (lit "owned_by", VStr (lit "TensorRT-LLM"))])]);
     (lit "object", VStr (lit "list"))])).

Section ChatCompletion.

(** [format(v, "")] of a value that is not a str, a builtin taken as
    given; a str is formatted as itself. *)
Variable repr : value -> str.

Definition format (v : value) : str :=
  match v with
  | VStr s => s
  | _ => repr v
  end.

(** The body of the loop over the messages. *)
Definition chat_step (chat_prompt : str) (message : value) : M str :=
  role <- py_getitem message (lit "role") ;;
  chat_prompt <-
    (if eq_str role (lit "user") then
       c <- py_getitem message (lit "content") ;;
       ret (chat_prompt ++ lit "[INST] " ++ format c ++ lit " [/INST] ")
     else ret chat_prompt) ;;
  role <- py_getitem message (lit "role") ;;
  if eq_str role (lit "assistant") then
    c <- py_getitem message (lit "content") ;;
    ret (chat_prompt ++ format c ++ lit " </s> ")
  else ret chat_prompt.

Fixpoint chat_loop (chat_prompt : str) (messages : list value) : M str :=
  match messages with
  | [] => ret chat_prompt
  | message :: messages' =>
      chat_prompt <- chat_step chat_prompt message ;;
      chat_loop chat_prompt messages'
  end.

(** [POST /v1/chat/completions]. *)
Definition chat_completion (srv : Server) (request_json : value)
  : M Response :=
  e <- assert_executor srv ;;
  '(streaming, request_dict) <-
     py_pop request_json (lit "streaming") (VBool false) ;;
  if truthy streaming then
    JSONResponse (VDict (dict_display
      [(lit "error", VStr (lit "streaming is not yet supported!"))]))
  else
    messages_v <- py_getitem request_dict (lit "messages") ;;
    messages <- py_iter messages_v ;;
    chat_prompt <- chat_loop (lit "<s> ") messages ;;
    max_tokens <- py_getitem request_dict (lit "max_tokens") ;;
    promise <- call_generate_async e
                 [(lit "prompt", VStr chat_prompt);
                  (lit "max_new_tokens", max_tokens);
                  (lit "streaming", streaming)] ;;
    _ <- await promise ;;
    JSONResponse (VDict (dict_display
      [(lit "object", VStr (lit "chat.completion"));
       (lit "choices",
        VList [VDict (dict_display
          [(lit "finish_reason", VStr (lit "stop"));
           (lit "index", VInt 0);
           (lit "message",
            VDict (dict_display
              [(lit "content", VStr (text promise));
               (lit "role", VStr (lit "assistant"))]))])]);
       (lit "id", VStr (lit "xd"));
       (lit "created", VFloat (time_time srv));
       (lit "model", VStr (lit "default"));
       (lit "usage",
        VDict (dict_display
          [(lit "completion_tokens", VInt 18);
           (lit "prompt_tokens", VInt 14);
           (lit "total_tokens", VInt 32)]))])).

End ChatCompletion.

(** ** Requests: what a body asks for *)

(** The value [d.pop(k, default)] returns. *)
Definition pop_value (k : str) (default : value) (d : dict) : value :=
  match dict_get k d with
  | Some v => v
  | None => default
  end.

(** The three keyword arguments the handlers pass to
    [executor.generate_async]. *)
Definition generate_kwargs (prompt max_new_tokens streaming : value) : kwargs :=
  [(lit "prompt", prompt); (lit "max_new_tokens", max_new_tokens);
   (lit "streaming", streaming)].

(** A body is a non-streaming one when [streaming] is absent or [false]. *)
Definition non_streaming (d : dict) : bool :=
  match dict_get (lit "streaming") d with
  | None | Some (VBool false) => true
  | Some _ => false
  end.

(** The role and the content of a message that is an object with both
    fields. *)
Definition message_of (m : value) : option (value * value) :=
  match m with
  | VDict d =>
      match dict_get (lit "role") d, dict_get (lit "content") d with
      | Some r, Some c => Some (r, c)
      | _, _ => None
      end
  | _ => None
  end.

(** A handler answers "bad request" when it returns a response of the 4xx
    class. *)
Definition answers_bad_request (r : (exn + Response) * list kwargs) : Prop :=
  exists resp, fst r = inr resp /\ 400 <= status_code resp < 500.

(** ** The contract of the engine *)

(** Modelled from the spec: the contract of the GenerationHandle, whose
    code (the engine, tensorrt_llm.executor) is not among the sources at
    hand.  The handle "supports two access modes: incremental iteration
    (each step yields a text fragment) and blocking wait-to-completion
    (yields final accumulated text)": the text of a completed handle is
    its fragments, concatenated in order. *)
Definition accumulates (p : Promise) : Prop :=
  text p = List.concat (outputs p).

(** ** The objects of the responses *)

(** The one model descriptor of the listing. *)
Definition default_model : value :=
  VDict [(lit "id", VStr (lit "default"));
         (lit "object", VStr (lit "model"));
         (lit "created", VInt 1686935002);
         (lit "owned_by", VStr (lit "TensorRT-LLM"))].

(** The object [chat_completion] answers a streaming request with. *)
Definition streaming_unsupported : value :=
  VDict [(lit "error", VStr (lit "streaming is not yet supported!"))].

(** The object of a completed chat request. *)
Definition chat_completion_object (generated : str) (created : float)
  : value :=
  VDict [(lit "object", VStr (lit "chat.completion"));
         (lit "choices",
          VList [VDict [(lit "finish_reason", VStr (lit "stop"));
                        (lit "index", VInt 0);
                        (lit "message",
                         VDict [(lit "content", VStr generated);
                                (lit "role", VStr (lit "assistant"))])]]);
         (lit "id", VStr (lit "xd"));
         (lit "created", VFloat created);
         (lit "model", VStr (lit "default"));
         (lit "usage",
          VDict [(lit "completion_tokens", VInt 18);
                 (lit "prompt_tokens", VInt 14);
                 (lit "total_tokens", VInt 32)])].

(** ** The prompt template *)

Section ChatTemplate.

Variable repr : value -> str.

(** The prompt template in the words of the spec: what one message adds,
    by its role, and the whole prompt of a list of (role, content). *)
Definition template_piece (role content : value) : str :=
  if eq_str role (lit "user") then
    lit "[INST] " ++ format repr content ++ lit " [/INST] "
  else if eq_str role (lit "assistant") then
    format repr content ++ lit " </s> "
  else [].

Definition chat_template (msgs : list (value * value)) : str :=
  lit "<s> "
  ++ List.concat (map (fun m => template_piece (fst m) (snd m)) msgs).

End ChatTemplate.

(** ** Frames and text *)

(** Printable ASCII. *)
Definition printable (c : Z) : Prop := 32 <= c <= 126.

(** One frame of the stream: the JSON text of the fragment and a NUL. *)
Definition frame (fragment : str) : bytes := json_dumps fragment ++ [0].

(** A code point of a well-formed text: a Unicode scalar value. *)
Definition scalar (c : Z) : Prop :=
  0 <= c < 55296 \/ 57344 <= c <= 1114111.

(** ** The client side of the stream *)

(** The client side, in the words of the spec: the stream is split on
    NUL, and each piece is JSON-decoded (UTF-8, then one JSON string). *)
Fixpoint split_on (sep : Z) (bs : bytes) : list bytes :=
  match bs with
  | [] => [[]]
  | b :: bs' =>
      if b =? sep then [] :: split_on sep bs'
      else
        match split_on sep bs' with
        | piece :: pieces => (b :: piece) :: pieces
        | [] => [[b]]
        end
  end.

(** A continuation byte of a UTF-8 sequence. *)
Definition continuation (b : Z) : bool := (128 <=? b) && (b <? 192).

(** Strict UTF-8: no overlong form, no surrogate, nothing above
    U+10FFFF. *)
Fixpoint decode_utf8 (bs : bytes) : option str :=
  match bs with
  | [] => Some []
  | b0 :: r0 =>
      if (0 <=? b0) && (b0 <? 128) then
        option_map (cons b0) (decode_utf8 r0)
      else if (194 <=? b0) && (b0 <? 224) then
        match r0 with
        | b1 :: r1 =>
            if continuation b1 then
              option_map (cons ((b0 - 192) * 64 + (b1 - 128)))
                         (decode_utf8 r1)
            else None
        | _ => None
        end
      else if (224 <=? b0) && (b0 <? 240) then
        match r0 with
        | b1 :: b2 :: r2 =>
            let c := (b0 - 224) * 4096 + (b1 - 128) * 64 + (b2 - 128) in
            if continuation b1 && continuation b2 && (2048 <=? c)
               && negb ((55296 <=? c) && (c <=? 57343))
            then option_map (cons c) (decode_utf8 r2)
            else None
        | _ => None
        end
      else if (240 <=? b0) && (b0 <? 245) then
        match r0 with
        | b1 :: b2 :: b3 :: r3 =>
            let c := (b0 - 240) * 262144 + (b1 - 128) * 4096
                     + (b2 - 128) * 64 + (b3 - 128) in
            if continuation b1 && continuation b2 && continuation b3
               && (65536 <=? c) && (c <=? 1114111)
            then option_map (cons c) (decode_utf8 r3)
            else None
        | _ => None
        end
      else None
  end.

(** The value of a hexadecimal digit, of either case, and of four of
    them. *)
Definition hexval (c : Z) : option Z :=
  if (48 <=? c) && (c <=? 57) then Some (c - 48)
  else if (97 <=? c) && (c <=? 102) then Some (c - 87)
  else if (65 <=? c) && (c <=? 70) then Some (c - 55)
  else None.

Definition unhex4 (h1 h2 h3 h4 : Z) : option Z :=
  match hexval h1, hexval h2, hexval h3, hexval h4 with
  | Some a, Some b, Some c, Some d => Some (((a * 16 + b) * 16 + c) * 16 + d)
  | _, _, _, _ => None
  end.

(** The character a two-character escape stands for. *)
Definition unescape (e : Z) : option Z :=
  if e =? 34 then Some 34
  else if e =? 92 then Some 92
  else if e =? 47 then Some 47
  else if e =? 98 then Some 8
  else if e =? 102 then Some 12
  else if e =? 110 then Some 10
  else if e =? 114 then Some 13
  else if e =? 116 then Some 9
  else None.

(** The two halves of a UTF-16 surrogate pair, and the character a pair
    stands for. *)
Definition high_surrogate (u : Z) : bool := (55296 <=? u) && (u <=? 56319).

Definition low_surrogate (u : Z) : bool := (56320 <=? u) && (u <=? 57343).

Definition join_surrogates (hi lo : Z) : Z :=
  65536 + (hi - 55296) * 1024 + (lo - 56320).

(** The characters of a JSON string, read after its opening quote up to
    the closing quote, which has to end the text.  A high surrogate escape
    followed by a low surrogate escape is one character. *)
Fixpoint scanstring (s : str) : option str :=
  match s with
  | [] => None
  | c :: r =>
      if c =? 34 then match r with [] => Some [] | _ => None end
      else if c =? 92 then
        match r with
        | [] => None
        | e :: r1 =>
            if e =? 117 then
              match r1 with
              | h1 :: h2 :: h3 :: h4 :: r2 =>
                  match unhex4 h1 h2 h3 h4 with
                  | None => None
                  | Some u =>
                      if high_surrogate u then
                        match r2 with
                        | b :: x :: l1 :: l2 :: l3 :: l4 :: r3 =>
                            if (b =? 92) && (x =? 117) then
                              match unhex4 l1 l2 l3 l4 with
                              | None => None
                              | Some lo =>
                                  if low_surrogate lo then
                                    option_map (cons (join_surrogates u lo))
                                               (scanstring r3)
                                  else option_map (cons u) (scanstring r2)
                              end
                            else option_map (cons u) (scanstring r2)
                        | _ => option_map (cons u) (scanstring r2)
                        end
                      else option_map (cons u) (scanstring r2)
                  end
              | _ => None
              end
            else
              match unescape e with
              | Some x => option_map (cons x) (scanstring r1)
              | None => None
              end
        end
      else if c <? 32 then None
      else option_map (cons c) (scanstring r)
  end.

(** JSON-decoding of a piece that is to hold one JSON string. *)
Definition json_loads_str (piece : bytes) : option str :=
  match decode_utf8 piece with
  | Some (q :: s) => if q =? 34 then scanstring s else None
  | _ => None
  end.

(** ** Sample data *)

(** A small engine to run the handlers on: every call succeeds with a
    handle of two fragments. *)
Definition demo_promise : Promise :=
  {| outputs := [lit "Hel"; lit "lo"];
     await_completion := None;
     text := lit "Hello" |}.

Definition demo_executor : GenerationExecutor :=
  {| generate_async := fun _ => inr demo_promise |}.

Definition demo_server : Server :=
  {| executor := Some demo_executor; time_time := 1700000000%float |}.

(** A stand-in for the formatting of the values that are not a str, to run
    [chat_completion] on concrete requests. *)
Definition demo_repr (v : value) : str := lit "<value>".

(** A body with one sampling parameter next to the required fields. *)
Definition sampling_request : value :=
  VDict [(lit "prompt", VStr (lit "Hi"));
         (lit "max_new_tokens", VInt 8);
         (lit "top_k", VInt 40)].

(** The two conversations of the spec. *)
Definition hi_request : value :=
  VDict [(lit "messages",
          VList [VDict [(lit "role", VStr (lit "user"));
                        (lit "content", VStr (lit "Hi"))]]);
         (lit "max_tokens", VInt 16)].

Definition hi_hello_request : value :=
  VDict [(lit "messages",
          VList [VDict [(lit "role", VStr (lit "user"));
                        (lit "content", VStr (lit "Hi"))];
                 VDict [(lit "role", VStr (lit "assistant"));
                        (lit "content", VStr (lit "Hello"))]]);
         (lit "max_tokens", VInt 16)].

(** ** Messages, one by one *)

(** A role whose message adds to the prompt. *)
Definition speaks (role : value) : bool :=
  eq_str role (lit "user") || eq_str role (lit "assistant").

(** The exception a message makes the loop raise, if any: a message that
    is no object, that has no role, or that speaks and has no content. *)
Definition message_error (m : value) : option exn :=
  match m with
  | VDict d =>
      match dict_get (lit "role") d with
      | None => Some (KeyError (lit "role"))
      | Some r =>
          if speaks r then
            match dict_get (lit "content") d with
            | None => Some (KeyError (lit "content"))
            | Some _ => None
            end
          else None
      end
  | _ => Some TypeError
  end.

(** A message the loop goes past: an object whose role does not speak. *)
Definition skipped (m : value) : bool :=
  match m with
  | VDict d =>
      match dict_get (lit "role") d with
      | Some r => negb (speaks r)
      | None => false
      end
  | _ => false
  end.

(** A message of the given role and content. *)
Definition message (role : string) (c : str) : value :=
  VDict [(lit "role", VStr (lit role)); (lit "content", VStr c)].

(** ** More sample data *)

(** An engine that refuses every call, and one whose handles never
    complete well. *)
Definition refusing_executor : GenerationExecutor :=
  {| generate_async := fun _ => inl (EngineError (lit "engine is down")) |}.

Definition broken_promise : Promise :=
  {| outputs := [lit "Hel"];
     await_completion := Some (EngineError (lit "generation failed"));
     text := lit "Hel" |}.

Definition breaking_executor : GenerationExecutor :=
  {| generate_async := fun _ => inr broken_promise |}.

Definition server_of (e : GenerationExecutor) : Server :=
  {| executor := Some e; time_time := 1700000000%float |}.

(** An engine whose text holds a lone surrogate. *)
Definition surrogate_promise : Promise :=
  {| outputs := [[55357]]; await_completion := None; text := [55357] |}.

Definition surrogate_executor : GenerationExecutor :=
  {| generate_async := fun _ => inr surrogate_promise |}.

(** ** Properties *)

(** *** Rendering *)

(** Building a [JSONResponse] records no engine call. *)
Lemma JSONResponse_log (v : value) (log : list kwargs) :
  snd (JSONResponse v log) = log.
Proof.
  unfold JSONResponse, bind, render.
  destruct (floats_finite v); [|reflexivity].
  destruct (strs_encodable v); reflexivity.
Qed.

Lemma JSONResponse_ok (v : value) (log : list kwargs) :
  floats_finite v = true ->
  strs_encodable v = true ->
  JSONResponse v log = (inr {| status_code := 200; content := Json v |}, log).
Proof.
  intros Hf Hs. unfold JSONResponse, bind, render. now rewrite Hf, Hs.
Qed.

Lemma JSONResponse_returns (v : value) (log : list kwargs) (r : Response) :
  fst (JSONResponse v log) = inr r ->
  r = {| status_code := 200; content := Json v |}.
Proof.
  unfold JSONResponse, bind, render.
  destruct (floats_finite v); [|discriminate].
  destruct (strs_encodable v); [|discriminate].
  intros H. now injection H as <-.
Qed.

(** A text of scalar values can be encoded. *)
Lemma encodable_scalar (s : str) : Forall scalar s -> encodable s = true.
Proof.
  intros Hs. unfold encodable.
  assert (H : exists bs, encode_utf8 s = inr bs).
  { induction Hs as [|c s Hc _ [bs IH]]; [now exists []|].
    cbn [encode_utf8]. rewrite IH. unfold utf8_char.
    destruct (c <? 128); [eexists; reflexivity|].
    destruct (c <? 2048); [eexists; reflexivity|].
    replace ((55296 <=? c) && (c <=? 57343)) with false.
    - destruct (c <? 65536); eexists; reflexivity.
    - symmetry. apply andb_false_iff. unfold scalar in Hc.
      destruct (Z.leb_spec 55296 c); [right; apply Z.leb_gt; lia | now left]. }
  destruct H as [bs ->]. reflexivity.
Qed.

Lemma encodable_concat (l : list str) :
  Forall (Forall scalar) l -> encodable (List.concat l) = true.
Proof.
  intros Hl. apply encodable_scalar.
  induction Hl as [|t l Ht _ IH]; [constructor|].
  cbn [List.concat]. apply Forall_app. now split.
Qed.

(** *** [GET /health] *)

(** C9: [health] answers 200 with an empty body whatever the state of the
    server is, initialised engine or not; it records no engine call, and
    its result does not depend on the state at all. *)
Theorem health_always_ok :
  (forall srv log,
      health srv log = (inr {| status_code := 200; content := Empty |}, log))
  /\ (forall srv srv' log, health srv log = health srv' log).
Proof. split; reflexivity. Qed.

(** *** [GET /v1/models] *)

(** C8: [show_available_models] returns the same response at every call:
    the object with [object = "list"] and a [data] list of exactly one
    entry, the model ["default"] of type ["model"], created at 1686935002
    and owned by ["TensorRT-LLM"]. *)
Theorem show_available_models_constant :
  (forall srv log,
      show_available_models srv log =
      (inr {| status_code := 200;
              content :=
                Json (VDict [(lit "object", VStr (lit "list"));
                             (lit "data", VList [default_model])]) |},
       log))
  /\ (forall srv srv' log log',
         fst (show_available_models srv log) =
         fst (show_available_models srv' log')).
Proof. split; reflexivity. Qed.

(** *** Dictionaries and keys *)

Lemma str_eqb_refl (a : str) : str_eqb a a = true.
Proof.
  induction a as [|x a IH]; simpl; [reflexivity|].
  now rewrite Z.eqb_refl, IH.
Qed.

Lemma str_eqb_eq (a b : str) : str_eqb a b = true <-> a = b.
Proof.
  split; [|intros ->; apply str_eqb_refl].
  revert b; induction a as [|x a IH]; intros [|y b]; simpl; try discriminate.
  - reflexivity.
  - intros H. apply andb_prop in H as [Hx Hr].
    apply Z.eqb_eq in Hx. f_equal; [exact Hx | now apply IH].
Qed.

(** Popping a key leaves the lookups of the other keys as they were. *)
Lemma dict_get_remove_neq (k k' : str) (d : dict) :
  str_eqb k k' = false ->
  dict_get k' (dict_remove k d) = dict_get k' d.
Proof.
  intros Hk. induction d as [|[k0 v] d IH]; simpl; [reflexivity|].
  destruct (str_eqb k0 k) eqn:E.
  - apply str_eqb_eq in E. subst k0. now rewrite Hk.
  - simpl. now rewrite IH.
Qed.

Lemma dict_remove_absent (k : str) (d : dict) :
  dict_get k d = None -> dict_remove k d = d.
Proof.
  induction d as [|[k0 v] d IH]; simpl; [reflexivity|].
  destruct (str_eqb k0 k); [discriminate|].
  intros H. now rewrite IH.
Qed.

Lemma py_pop_dict (k : str) (default : value) (d : dict) (log : list kwargs) :
  py_pop (VDict d) k default log =
  (inr (pop_value k default d, VDict (dict_remove k d)), log).
Proof.
  unfold py_pop, pop_value.
  destruct (dict_get k d) eqn:E; [reflexivity|].
  now rewrite dict_remove_absent.
Qed.

(** *** [POST /generate] *)

(** [main] sets [executor] before the server starts to serve, so that the
    statements below are about a server whose [executor] is set; before
    that, the assertion of the handler fails. *)
Example generate_without_executor :
  generate {| executor := None; time_time := 0%float |}
           (VDict [(lit "prompt", VStr (lit "Hi"));
                   (lit "max_new_tokens", VInt 8)]) [] =
  (inl AssertionError, []).
Proof. reflexivity. Qed.

(** What [generate] does on a JSON object, case by case. *)
Lemma generate_dict (srv : Server) (e : GenerationExecutor) (d : dict)
      (log : list kwargs) :
  executor srv = Some e ->
  generate srv (VDict d) log =
  match dict_get (lit "prompt") d with
  | None => (inl (KeyError (lit "prompt")), log)
  | Some prompt =>
      match dict_get (lit "max_new_tokens") d with
      | None => (inl (KeyError (lit "max_new_tokens")), log)
      | Some max_new_tokens =>
          let streaming := pop_value (lit "streaming") (VBool false) d in
          let kw := generate_kwargs prompt max_new_tokens streaming in
          match generate_async e kw with
          | inl x => (inl x, log ++ [kw])
          | inr promise =>
              if truthy streaming then
                (inr (StreamingResponse (stream_results (outputs promise))),
                 log ++ [kw])
              else
                match await_completion promise with
                | Some x => (inl x, log ++ [kw])
                | None =>
                    JSONResponse (VDict [(lit "text", VStr (text promise))])
                                 (log ++ [kw])
                end
          end
      end
  end.
Proof.
  intros He. unfold generate, assert_executor, bind at 1. rewrite He.
  unfold ret at 1. unfold bind at 1. rewrite py_pop_dict.
  unfold bind at 1, py_getitem at 1.
  rewrite (dict_get_remove_neq (lit "streaming") (lit "prompt"))
    by reflexivity.
  destruct (dict_get (lit "prompt") d) as [prompt|]; [|reflexivity].
  unfold ret at 1. unfold bind at 1, py_getitem at 1.
  rewrite (dict_get_remove_neq (lit "streaming") (lit "max_new_tokens"))
    by reflexivity.
  destruct (dict_get (lit "max_new_tokens") d) as [mnt|]; [|reflexivity].
  unfold ret at 1. unfold bind at 1, call_generate_async.
  cbv zeta. fold (generate_kwargs prompt mnt
                    (pop_value (lit "streaming") (VBool false) d)).
  destruct (generate_async e _) as [x|promise]; [reflexivity|].
  destruct (truthy _); [reflexivity|].
  unfold bind, await. destruct (await_completion promise); reflexivity.
Qed.

(** C1, as stated, fails: on a body without [prompt] the handler does not
    return a 4xx response. *)
Lemma generate_missing_prompt_no_bad_request :
  ~ answers_bad_request
      (generate demo_server (VDict [(lit "max_new_tokens", VInt 8)]) []).
Proof.
  intros [resp [H _]]. vm_compute in H. discriminate H.
Qed.

(** C1, amended: on a JSON object without [prompt], or with [prompt] and
    without [max_new_tokens], [generate] builds no response: it raises
    [KeyError] for the missing key ([prompt] when both are missing) and
    the engine has not been called. *)
Theorem generate_missing_field_raises
        (srv : Server) (e : GenerationExecutor) (d : dict)
        (log : list kwargs) :
  executor srv = Some e ->
  dict_get (lit "prompt") d = None
  \/ dict_get (lit "max_new_tokens") d = None ->
  generate srv (VDict d) log =
  (inl (KeyError (match dict_get (lit "prompt") d with
                  | None => lit "prompt"
                  | Some _ => lit "max_new_tokens"
                  end)), log).
Proof.
  intros He Hmiss. rewrite (generate_dict srv e d log He).
  destruct (dict_get (lit "prompt") d) as [p|]; [|reflexivity].
  destruct Hmiss as [Hp|Hm]; [discriminate Hp|].
  now rewrite Hm.
Qed.

Lemma generate_missing_field_raises_witness :
  executor demo_server = Some demo_executor
  /\ dict_get (lit "max_new_tokens") [(lit "prompt", VStr (lit "Hi"))] = None
  /\ generate demo_server (VDict [(lit "prompt", VStr (lit "Hi"))]) [] =
     (inl (KeyError (lit "max_new_tokens")), []).
Proof.
  split; [reflexivity|]. split; [reflexivity|].
  apply (generate_missing_field_raises demo_server demo_executor
           [(lit "prompt", VStr (lit "Hi"))] []);
    [reflexivity | right; reflexivity].
Defined.

(** Whatever the body is, an engine call of [generate] carries the three
    keywords [prompt], [max_new_tokens] and [streaming], and no other. *)
Lemma generate_call_keywords (srv : Server) (d : dict) (log : list kwargs) :
  snd (generate srv (VDict d) log) = log
  \/ exists kw, snd (generate srv (VDict d) log) = log ++ [kw]
                /\ map fst kw =
                   [lit "prompt"; lit "max_new_tokens"; lit "streaming"].
Proof.
  destruct (executor srv) as [e|] eqn:He.
  - rewrite (generate_dict srv e d log He).
    destruct (dict_get (lit "prompt") d) as [p|]; [|left; reflexivity].
    destruct (dict_get (lit "max_new_tokens") d) as [m|]; [|left; reflexivity].
    right. exists (generate_kwargs p m (pop_value (lit "streaming") (VBool false) d)).
    split; [|reflexivity]. cbv zeta.
    destruct (generate_async e _) as [x|pr]; [reflexivity|].
    destruct (truthy _); [reflexivity|].
    destruct (await_completion pr); [reflexivity | apply JSONResponse_log].
  - left. unfold generate, assert_executor, bind. now rewrite He.
Qed.

(** C2: the extra field [top_k] of [sampling_request] does not reach the
    engine: the one call made has the keywords [prompt], [max_new_tokens]
    and [streaming] only. *)
Theorem generate_drops_sampling_parameters :
  snd (generate demo_server sampling_request []) =
    [generate_kwargs (VStr (lit "Hi")) (VInt 8) (VBool false)]
  /\ dict_get (lit "top_k")
       (generate_kwargs (VStr (lit "Hi")) (VInt 8) (VBool false)) = None.
Proof. split; reflexivity. Qed.

Lemma non_streaming_pop (d : dict) :
  non_streaming d = true ->
  pop_value (lit "streaming") (VBool false) d = VBool false.
Proof.
  unfold non_streaming, pop_value.
  destruct (dict_get (lit "streaming") d) as [[| [|] | | | | |]|];
    try discriminate; reflexivity.
Qed.

(** C5: on a body with [prompt] and [max_new_tokens] whose [streaming] is
    absent or false, [generate] calls the engine once, with streaming off,
    and waits for the completion of the handle it gets: a completion that
    raises makes [generate] raise; once the completion is reported,
    [generate] returns the one object [{"text": t}], where [t] is the
    concatenation, in order, of the fragments of that handle, which are
    text (sequences of scalar values). *)
Theorem generate_non_streaming_text
        (srv : Server) (e : GenerationExecutor) (d : dict)
        (log : list kwargs) (prompt max_new_tokens : value) (p : Promise) :
  executor srv = Some e ->
  non_streaming d = true ->
  dict_get (lit "prompt") d = Some prompt ->
  dict_get (lit "max_new_tokens") d = Some max_new_tokens ->
  generate_async e (generate_kwargs prompt max_new_tokens (VBool false))
    = inr p ->
  accumulates p ->
  Forall (Forall scalar) (outputs p) ->
  generate srv (VDict d) log =
  (match await_completion p with
   | Some x => inl x
   | None =>
       inr {| status_code := 200;
              content :=
                Json (VDict [(lit "text",
                              VStr (List.concat (outputs p)))]) |}
   end,
   log ++ [generate_kwargs prompt max_new_tokens (VBool false)]).
Proof.
  intros He Hns Hp Hm Hcall Hacc Htext.
  rewrite (generate_dict srv e d log He), Hp, Hm.
  cbv zeta. rewrite (non_streaming_pop d Hns), Hcall. simpl truthy. cbv iota.
  destruct (await_completion p); [reflexivity|].
  rewrite Hacc. apply JSONResponse_ok; [reflexivity|].
  cbn [strs_encodable forallb fst snd].
  rewrite (encodable_concat _ Htext). reflexivity.
Qed.

Lemma generate_non_streaming_text_witness :
  generate demo_server
    (VDict [(lit "prompt", VStr (lit "Hi")); (lit "max_new_tokens", VInt 8)])
    [] =
  (inr {| status_code := 200;
          content := Json (VDict [(lit "text", VStr (lit "Hello"))]) |},
   [generate_kwargs (VStr (lit "Hi")) (VInt 8) (VBool false)]).
Proof.
  apply (generate_non_streaming_text demo_server demo_executor
           [(lit "prompt", VStr (lit "Hi")); (lit "max_new_tokens", VInt 8)]
           [] (VStr (lit "Hi")) (VInt 8) demo_promise); try reflexivity.
  repeat constructor; unfold scalar; lia.
Defined.

(** *** [POST /v1/chat/completions] *)

Section ChatProperties.

Variable repr : value -> str.

Lemma user_not_assistant (role : value) :
  eq_str role (lit "user") = true -> eq_str role (lit "assistant") = false.
Proof.
  destruct role; try discriminate. simpl.
  intros H. apply str_eqb_eq in H. now subst s.
Qed.

Lemma chat_step_message (chat_prompt : str) (m role c : value)
      (log : list kwargs) :
  message_of m = Some (role, c) ->
  chat_step repr chat_prompt m log =
  (inr (chat_prompt ++ template_piece repr role c), log).
Proof.
  destruct m as [| | | | | |d]; try discriminate. unfold message_of.
  destruct (dict_get (lit "role") d) as [r|] eqn:Hr; [|discriminate].
  destruct (dict_get (lit "content") d) as [c'|] eqn:Hc; [|discriminate].
  intros H. injection H as -> ->.
  unfold chat_step, template_piece, bind, py_getitem, ret.
  rewrite Hr.
  destruct (eq_str role (lit "user")) eqn:Hu.
  - now rewrite Hc, (user_not_assistant role Hu).
  - destruct (eq_str role (lit "assistant")).
    + now rewrite Hc.
    + now rewrite app_nil_r.
Qed.

Lemma chat_loop_messages (ms : list value) :
  forall (typed : list (value * value)) (chat_prompt : str)
         (log : list kwargs),
    map message_of ms = map Some typed ->
    chat_loop repr chat_prompt ms log =
    (inr (chat_prompt
          ++ List.concat
               (map (fun m => template_piece repr (fst m) (snd m)) typed)),
     log).
Proof.
  induction ms as [|m ms IH]; intros [|[r c] typed] chat_prompt log H;
    try discriminate H.
  - simpl. now rewrite app_nil_r.
  - simpl in H. injection H as Hm Hms.
    cbn [chat_loop]. unfold bind at 1.
    rewrite (chat_step_message chat_prompt m r c log Hm).
    rewrite (IH typed _ log Hms). cbn [map List.concat fst snd].
    now rewrite <- app_assoc.
Qed.

(** What [chat_completion] does on a JSON object, case by case, when the
    messages are objects with a role and a content. *)
Lemma chat_completion_dict (srv : Server) (e : GenerationExecutor) (d : dict)
      (log : list kwargs) :
  executor srv = Some e ->
  chat_completion repr srv (VDict d) log =
  let streaming := pop_value (lit "streaming") (VBool false) d in
  if truthy streaming then
    (inr {| status_code := 200; content := Json streaming_unsupported |}, log)
  else
    match dict_get (lit "messages") d with
    | None => (inl (KeyError (lit "messages")), log)
    | Some messages_v =>
        match py_iter messages_v log with
        | (inl x, log') => (inl x, log')
        | (inr messages, log') =>
            match chat_loop repr (lit "<s> ") messages log' with
            | (inl x, log'') => (inl x, log'')
            | (inr chat_prompt, log'') =>
                match dict_get (lit "max_tokens") d with
                | None => (inl (KeyError (lit "max_tokens")), log'')
                | Some max_tokens =>
                    let kw :=
                      generate_kwargs (VStr chat_prompt) max_tokens streaming
                    in
                    match generate_async e kw with
                    | inl x => (inl x, log'' ++ [kw])
                    | inr promise =>
                        match await_completion promise with
                        | Some x => (inl x, log'' ++ [kw])
                        | None =>
                            JSONResponse
                              (chat_completion_object
                                 (text promise) (time_time srv))
                              (log'' ++ [kw])
                        end
                    end
                end
            end
        end
    end.
Proof.
  intros He. unfold chat_completion, assert_executor, bind at 1. rewrite He.
  unfold ret at 1. unfold bind at 1. rewrite py_pop_dict. cbv zeta.
  destruct (truthy _); [reflexivity|].
  unfold bind at 1, py_getitem at 1.
  rewrite (dict_get_remove_neq (lit "streaming") (lit "messages"))
    by reflexivity.
  destruct (dict_get (lit "messages") d) as [mv|]; [|reflexivity].
  unfold ret at 1. unfold bind at 1.
  destruct (py_iter mv log) as [[x|ms] log']; [reflexivity|].
  unfold bind at 1.
  destruct (chat_loop repr (lit "<s> ") ms log') as [[x|cp] log''];
    [reflexivity|].
  unfold bind at 1, py_getitem at 1.
  rewrite (dict_get_remove_neq (lit "streaming") (lit "max_tokens"))
    by reflexivity.
  destruct (dict_get (lit "max_tokens") d) as [mt|]; [|reflexivity].
  unfold ret at 1. unfold bind at 1, call_generate_async.
  fold (generate_kwargs (VStr cp) mt
          (pop_value (lit "streaming") (VBool false) d)).
  destruct (generate_async e _) as [x|promise]; [reflexivity|].
  unfold bind, await. destruct (await_completion promise); reflexivity.
Qed.

End ChatProperties.

Lemma chat_completion_refuses_streaming
      (repr : value -> str) (srv : Server) (e : GenerationExecutor)
      (d : dict) (log : list kwargs) :
  executor srv = Some e ->
  truthy (pop_value (lit "streaming") (VBool false) d) = true ->
  chat_completion repr srv (VDict d) log =
  (inr {| status_code := 200; content := Json streaming_unsupported |},
     log).
Proof.
  intros He Ht. rewrite (chat_completion_dict repr srv e d log He).
  cbv zeta. now rewrite Ht.
Qed.

(** C6: when the body has [streaming = true], [chat_completion] returns
    exactly the object [{"error": "streaming is not yet supported!"}] and
    makes no engine call. *)
Theorem chat_completion_streaming_error
        (repr : value -> str) (srv : Server) (e : GenerationExecutor)
        (d : dict) (log : list kwargs) :
  executor srv = Some e ->
  dict_get (lit "streaming") d = Some (VBool true) ->
  chat_completion repr srv (VDict d) log =
  (inr {| status_code := 200;
          content :=
            Json (VDict [(lit "error",
                          VStr (lit "streaming is not yet supported!"))]) |},
   log).
Proof.
  intros He Hs.
  apply (chat_completion_refuses_streaming repr srv e d log He).
  unfold pop_value. now rewrite Hs.
Qed.

Lemma chat_completion_streaming_error_witness :
  chat_completion demo_repr demo_server
    (VDict [(lit "messages",
             VList [VDict [(lit "role", VStr (lit "user"));
                           (lit "content", VStr (lit "Hi"))]]);
            (lit "max_tokens", VInt 16);
            (lit "streaming", VBool true)]) [] =
  (inr {| status_code := 200; content := Json streaming_unsupported |},
     []).
Proof.
  apply (chat_completion_streaming_error demo_repr demo_server demo_executor);
    reflexivity.
Defined.

(** C10: when the body has a truthy [streaming], [chat_completion] returns
    the error object whatever else the body holds: [messages] and
    [max_tokens] are not looked up, so that their absence raises nothing,
    and no engine call is made. *)
Theorem chat_completion_streaming_first
        (repr : value -> str) (srv : Server) (e : GenerationExecutor)
        (d : dict) (v : value) (log : list kwargs) :
  executor srv = Some e ->
  dict_get (lit "streaming") d = Some v ->
  truthy v = true ->
  chat_completion repr srv (VDict d) log =
    (inr {| status_code := 200; content := Json streaming_unsupported |},
     log)
  /\ forall d' : dict,
       dict_get (lit "streaming") d' = Some v ->
       chat_completion repr srv (VDict d') log =
       chat_completion repr srv (VDict d) log.
Proof.
  intros He Hs Ht.
  assert (H : forall d0, dict_get (lit "streaming") d0 = Some v ->
                         chat_completion repr srv (VDict d0) log =
                         (inr {| status_code := 200; content := Json streaming_unsupported |},
     log)).
  { intros d0 H0.
    apply (chat_completion_refuses_streaming repr srv e d0 log He).
    unfold pop_value. now rewrite H0. }
  split; [now apply H|].
  intros d' Hd'. now rewrite (H d' Hd'), (H d Hs).
Qed.

Lemma chat_completion_streaming_first_witness :
  dict_get (lit "messages") [(lit "streaming", VInt 1)] = None
  /\ dict_get (lit "max_tokens") [(lit "streaming", VInt 1)] = None
  /\ chat_completion demo_repr demo_server
       (VDict [(lit "streaming", VInt 1)]) [] =
     (inr {| status_code := 200; content := Json streaming_unsupported |},
     []).
Proof.
  split; [reflexivity|]. split; [reflexivity|].
  apply (chat_completion_streaming_first demo_repr demo_server demo_executor
           [(lit "streaming", VInt 1)] (VInt 1) []); reflexivity.
Defined.

(** C3: on a non-streaming body whose [messages] is a list of objects with
    a role and a content, [chat_completion] calls the engine once, with
    the prompt ["<s> "] followed by the piece of each message in order
    ([[INST] content [/INST] ] for a user, [content </s> ] for an
    assistant, nothing for another role), with [max_new_tokens] equal to
    [max_tokens] and streaming off. *)
Theorem chat_completion_prompt
        (repr : value -> str) (srv : Server) (e : GenerationExecutor)
        (d : dict) (log : list kwargs) (ms : list value)
        (typed : list (value * value)) (max_tokens : value) :
  executor srv = Some e ->
  non_streaming d = true ->
  dict_get (lit "messages") d = Some (VList ms) ->
  map message_of ms = map Some typed ->
  dict_get (lit "max_tokens") d = Some max_tokens ->
  snd (chat_completion repr srv (VDict d) log) =
  log ++ [generate_kwargs (VStr (chat_template repr typed)) max_tokens
            (VBool false)].
Proof.
  intros He Hns Hms Htyped Hmt.
  rewrite (chat_completion_dict repr srv e d log He). cbv zeta.
  rewrite (non_streaming_pop d Hns), Hms, Hmt. simpl truthy. cbv iota.
  unfold py_iter, ret.
  rewrite (chat_loop_messages repr ms typed (lit "<s> ") log Htyped).
  fold (chat_template repr typed).
  destruct (generate_async e _) as [x|p]; [reflexivity|].
  destruct (await_completion p); [reflexivity | apply JSONResponse_log].
Qed.

Lemma chat_completion_prompt_witness :
  snd (chat_completion demo_repr demo_server hi_hello_request []) =
  [generate_kwargs (VStr (lit "<s> [INST] Hi [/INST] Hello </s> ")) (VInt 16)
     (VBool false)].
Proof.
  apply (chat_completion_prompt demo_repr demo_server demo_executor _ []
           [VDict [(lit "role", VStr (lit "user"));
                   (lit "content", VStr (lit "Hi"))];
            VDict [(lit "role", VStr (lit "assistant"));
                   (lit "content", VStr (lit "Hello"))]]
           [(VStr (lit "user"), VStr (lit "Hi"));
            (VStr (lit "assistant"), VStr (lit "Hello"))]
           (VInt 16)); reflexivity.
Defined.

Example chat_completion_prompt_hi :
  snd (chat_completion demo_repr demo_server hi_request []) =
  [generate_kwargs (VStr (lit "<s> [INST] Hi [/INST] ")) (VInt 16)
     (VBool false)].
Proof. reflexivity. Qed.

(** A message of another role adds nothing, and its content is not even
    looked up. *)
Example chat_completion_prompt_system :
  snd (chat_completion demo_repr demo_server
         (VDict [(lit "messages",
                  VList [VDict [(lit "role", VStr (lit "system"))];
                         VDict [(lit "role", VStr (lit "user"));
                                (lit "content", VStr (lit "Hi"))]]);
                 (lit "max_tokens", VInt 16)]) []) =
  [generate_kwargs (VStr (lit "<s> [INST] Hi [/INST] ")) (VInt 16)
     (VBool false)].
Proof. reflexivity. Qed.

(** C7: on a non-streaming body with well-formed messages, once the engine
    has handed out a handle that completes, the response is the chat
    completion object with exactly one choice, of finish reason ["stop"],
    role ["assistant"] and the generated text as content, and with the
    usage block 18 / 14 / 32, whatever the request and the generated text
    are, as long as the object can be rendered: the generated text is a
    sequence of scalar values and the clock gives a finite time. *)
Theorem chat_completion_response
        (repr : value -> str) (srv : Server) (e : GenerationExecutor)
        (d : dict) (log : list kwargs) (ms : list value)
        (typed : list (value * value)) (max_tokens : value) (p : Promise) :
  executor srv = Some e ->
  non_streaming d = true ->
  dict_get (lit "messages") d = Some (VList ms) ->
  map message_of ms = map Some typed ->
  dict_get (lit "max_tokens") d = Some max_tokens ->
  generate_async e
    (generate_kwargs (VStr (chat_template repr typed)) max_tokens
       (VBool false)) = inr p ->
  await_completion p = None ->
  Forall scalar (text p) ->
  PrimFloat.is_finite (time_time srv) = true ->
  exists obj : dict,
    fst (chat_completion repr srv (VDict d) log) =
      inr {| status_code := 200; content := Json (VDict obj) |}
    /\ dict_get (lit "object") obj = Some (VStr (lit "chat.completion"))
    /\ dict_get (lit "choices") obj =
       Some (VList [VDict [(lit "finish_reason", VStr (lit "stop"));
                           (lit "index", VInt 0);
                           (lit "message",
                            VDict [(lit "content", VStr (text p));
                                   (lit "role", VStr (lit "assistant"))])]])
    /\ dict_get (lit "usage") obj =
       Some (VDict [(lit "completion_tokens", VInt 18);
                    (lit "prompt_tokens", VInt 14);
                    (lit "total_tokens", VInt 32)])
    /\ map fst obj = [lit "object"; lit "choices"; lit "id"; lit "created";
                      lit "model"; lit "usage"].
Proof.
  intros He Hns Hms Htyped Hmt Hcall Hdone Htext Hclock.
  eexists. split.
  - rewrite (chat_completion_dict repr srv e d log He). cbv zeta.
    rewrite (non_streaming_pop d Hns), Hms, Hmt. simpl truthy. cbv iota.
    unfold py_iter, ret.
    rewrite (chat_loop_messages repr ms typed (lit "<s> ") log Htyped).
    fold (chat_template repr typed). rewrite Hcall, Hdone.
    rewrite JSONResponse_ok.
    + unfold chat_completion_object. reflexivity.
    + unfold chat_completion_object.
      cbn [floats_finite forallb snd]. now rewrite Hclock.
    + unfold chat_completion_object.
      cbn [strs_encodable forallb fst snd].
      rewrite (encodable_scalar _ Htext). reflexivity.
  - repeat split.
Qed.

Lemma chat_completion_response_witness :
  exists obj : dict,
    fst (chat_completion demo_repr demo_server hi_hello_request []) =
      inr {| status_code := 200; content := Json (VDict obj) |}
    /\ dict_get (lit "object") obj = Some (VStr (lit "chat.completion"))
    /\ dict_get (lit "choices") obj =
       Some (VList [VDict [(lit "finish_reason", VStr (lit "stop"));
                           (lit "index", VInt 0);
                           (lit "message",
                            VDict [(lit "content", VStr (lit "Hello"));
                                   (lit "role", VStr (lit "assistant"))])]])
    /\ dict_get (lit "usage") obj =
       Some (VDict [(lit "completion_tokens", VInt 18);
                    (lit "prompt_tokens", VInt 14);
                    (lit "total_tokens", VInt 32)])
    /\ map fst obj = [lit "object"; lit "choices"; lit "id"; lit "created";
                      lit "model"; lit "usage"].
Proof.
  apply (chat_completion_response demo_repr demo_server demo_executor _ []
           [VDict [(lit "role", VStr (lit "user"));
                   (lit "content", VStr (lit "Hi"))];
            VDict [(lit "role", VStr (lit "assistant"));
                   (lit "content", VStr (lit "Hello"))]]
           [(VStr (lit "user"), VStr (lit "Hi"));
            (VStr (lit "assistant"), VStr (lit "Hello"))]
           (VInt 16) demo_promise); try reflexivity.
  repeat constructor; unfold scalar; lia.
Defined.

(** *** The stream of [generate]: framing *)

Lemma land_15_range (x : Z) : 0 <= Z.land x 15 < 16.
Proof.
  change 15 with (Z.ones 4). rewrite Z.land_ones by lia.
  change (2 ^ 4) with 16. apply Z.mod_pos_bound. lia.
Qed.

Lemma hexdigit_printable (d : Z) : 0 <= d < 16 -> printable (hexdigit d).
Proof.
  intros H. unfold printable, hexdigit. destruct (d <? 10); lia.
Qed.

Lemma hex4_printable (c : Z) : Forall printable (hex4 c).
Proof.
  unfold hex4.
  repeat constructor; apply hexdigit_printable, land_15_range.
Qed.

Lemma S_CHAR_printable (c : Z) : S_CHAR c = true -> printable c.
Proof.
  unfold S_CHAR, printable. intros H.
  repeat (apply andb_prop in H as [H ?]). lia.
Qed.

Lemma ascii_escape_unichar_printable (c : Z) :
  Forall printable (ascii_escape_unichar c).
Proof.
  unfold ascii_escape_unichar.
  constructor; [unfold printable; lia|].
  repeat match goal with
         | |- Forall _ (if ?b then _ else _) => destruct b
         end;
    try (repeat constructor; unfold printable; lia).
  - cbv zeta. constructor; [unfold printable; lia|].
    apply Forall_app. split; [apply hex4_printable|].
    constructor; [unfold printable; lia|].
    constructor; [unfold printable; lia|]. apply hex4_printable.
  - constructor; [unfold printable; lia|]. apply hex4_printable.
Qed.

Lemma escape_char_printable (c : Z) : Forall printable (escape_char c).
Proof.
  unfold escape_char. destruct (S_CHAR c) eqn:E.
  - constructor; [now apply S_CHAR_printable | constructor].
  - apply ascii_escape_unichar_printable.
Qed.

(** [json.dumps] of a str is made of printable ASCII characters: it holds
    no NUL in particular. *)
Lemma json_dumps_printable (s : str) : Forall printable (json_dumps s).
Proof.
  unfold json_dumps. constructor; [unfold printable; lia|].
  apply Forall_app. split.
  - induction s as [|c s IH]; simpl; [constructor|].
    apply Forall_app. split; [apply escape_char_printable | exact IH].
  - constructor; [unfold printable; lia | constructor].
Qed.

(** A bound on every character of a [json_dumps], from its being
    printable. *)
Ltac json_dumps_range :=
  eapply Forall_impl; [|apply json_dumps_printable];
  unfold printable; intros; lia.

(** ASCII text is its own UTF-8 encoding. *)
Lemma encode_utf8_ascii (s : str) :
  Forall (fun c => c < 128) s -> encode_utf8 s = inr s.
Proof.
  induction 1 as [|c s Hc _ IH]; simpl; [reflexivity|].
  unfold utf8_char. apply Z.ltb_lt in Hc. now rewrite Hc, IH.
Qed.

Lemma encode_frame (fragment : str) :
  encode_utf8 (json_dumps fragment ++ [0]) = inr (frame fragment).
Proof.
  apply encode_utf8_ascii. apply Forall_app. split.
  - json_dumps_range.
  - repeat constructor.
Qed.

Lemma stream_results_frames (outs : list str) :
  stream_results outs = (map frame outs, None).
Proof.
  induction outs as [|t outs IH]; [reflexivity|].
  cbn [stream_results map]. now rewrite encode_frame, IH.
Qed.

(** *** The stream of [generate]: what a client reads back *)

(** A quote, a backslash, a newline, a NUL, an accented letter and a
    character above the basic plane, there and back. *)
Example json_loads_dumps_sample :
  json_loads_str (json_dumps [72; 34; 92; 10; 0; 233; 128512]) =
  Some [72; 34; 92; 10; 0; 233; 128512].
Proof. reflexivity. Qed.

(** The NUL of a fragment is written as the six characters of its
    escape. *)
Example json_dumps_nul :
  json_dumps [0] = [34; 92; 117; 48; 48; 48; 48; 34].
Proof. reflexivity. Qed.

Lemma decode_utf8_ascii (bs : bytes) :
  Forall (fun b => 0 <= b < 128) bs -> decode_utf8 bs = Some bs.
Proof.
  induction 1 as [|b bs Hb _ IH]; [reflexivity|].
  cbn [decode_utf8].
  replace ((0 <=? b) && (b <? 128)) with true.
  - now rewrite IH.
  - symmetry. apply andb_true_intro.
    split; [apply Z.leb_le | apply Z.ltb_lt]; lia.
Qed.

Lemma hexval_hexdigit (d : Z) : 0 <= d < 16 -> hexval (hexdigit d) = Some d.
Proof.
  intros H. unfold hexval, hexdigit.
  destruct (Z.ltb_spec d 10).
  - replace ((48 <=? 48 + d) && (48 + d <=? 57)) with true.
    + f_equal. lia.
    + symmetry. apply andb_true_intro. split; apply Z.leb_le; lia.
  - replace ((48 <=? 87 + d) && (87 + d <=? 57)) with false.
    + replace ((97 <=? 87 + d) && (87 + d <=? 102)) with true.
      * f_equal. lia.
      * symmetry. apply andb_true_intro. split; apply Z.leb_le; lia.
    + symmetry. apply andb_false_iff. right. apply Z.leb_gt. lia.
Qed.

(** Four hexadecimal digits, written and read back. *)
Lemma unhex4_hex4 (v : Z) :
  0 <= v < 65536 ->
  unhex4 (hexdigit (Z.land (Z.shiftr v 12) 15))
         (hexdigit (Z.land (Z.shiftr v 8) 15))
         (hexdigit (Z.land (Z.shiftr v 4) 15))
         (hexdigit (Z.land v 15)) = Some v.
Proof.
  intros Hv. unfold unhex4.
  rewrite !hexval_hexdigit by apply land_15_range.
  f_equal. change 15 with (Z.ones 4).
  rewrite !Z.land_ones, !Z.shiftr_div_pow2 by lia.
  change (2 ^ 12) with 4096. change (2 ^ 8) with 256.
  change (2 ^ 4) with 16.
  Z.to_euclidean_division_equations. lia.
Qed.

Lemma scanstring_plain (c : Z) (r : str) :
  S_CHAR c = true ->
  scanstring (c :: r) = option_map (cons c) (scanstring r).
Proof.
  unfold S_CHAR. intros H.
  apply andb_prop in H as [H H34]. apply andb_prop in H as [H H92].
  apply andb_prop in H as [H32 _].
  apply negb_true_iff in H34, H92. apply Z.leb_le in H32.
  cbn [scanstring]. rewrite H34, H92.
  replace (c <? 32) with false by (symmetry; apply Z.ltb_ge; lia).
  reflexivity.
Qed.

Lemma scanstring_u (h1 h2 h3 h4 u : Z) (r : str) :
  unhex4 h1 h2 h3 h4 = Some u ->
  high_surrogate u = false ->
  scanstring (92 :: 117 :: h1 :: h2 :: h3 :: h4 :: r) =
  option_map (cons u) (scanstring r).
Proof.
  intros Hu Hh. cbn [scanstring].
  change (92 =? 34) with false. change (92 =? 92) with true.
  change (117 =? 117) with true. cbv iota.
  now rewrite Hu, Hh.
Qed.

Lemma scanstring_pair (h1 h2 h3 h4 l1 l2 l3 l4 hi lo : Z) (r : str) :
  unhex4 h1 h2 h3 h4 = Some hi ->
  high_surrogate hi = true ->
  unhex4 l1 l2 l3 l4 = Some lo ->
  low_surrogate lo = true ->
  scanstring (92 :: 117 :: h1 :: h2 :: h3 :: h4
                 :: 92 :: 117 :: l1 :: l2 :: l3 :: l4 :: r) =
  option_map (cons (join_surrogates hi lo)) (scanstring r).
Proof.
  intros Hhi Hh Hlo Hl. cbn [scanstring].
  change (92 =? 34) with false. change (92 =? 92) with true.
  change (117 =? 117) with true. cbv iota.
  rewrite Hhi, Hh. cbn [andb]. now rewrite Hlo, Hl.
Qed.

(** The escape of one scalar value is read back as that value, whatever
    follows it. *)
Lemma scanstring_escape_char (c : Z) (r : str) :
  scalar c ->
  scanstring (escape_char c ++ r) = option_map (cons c) (scanstring r).
Proof.
  intros Hc. unfold escape_char. destruct (S_CHAR c) eqn:HS.
  - now apply scanstring_plain.
  - unfold ascii_escape_unichar.
    destruct (Z.eqb_spec c 92) as [->|_]; [reflexivity|].
    destruct (Z.eqb_spec c 34) as [->|_]; [reflexivity|].
    destruct (Z.eqb_spec c 8) as [->|_]; [reflexivity|].
    destruct (Z.eqb_spec c 12) as [->|_]; [reflexivity|].
    destruct (Z.eqb_spec c 10) as [->|_]; [reflexivity|].
    destruct (Z.eqb_spec c 13) as [->|_]; [reflexivity|].
    destruct (Z.eqb_spec c 9) as [->|_]; [reflexivity|].
    destruct (Z.leb_spec 65536 c) as [Hbig|Hbmp].
    + cbv zeta. unfold hex4. cbn [app].
      change (Z.shiftr 65536 10) with 64.
      assert (Hr : 65536 <= c <= 1114111) by (unfold scalar in Hc; lia).
      assert (Hq : Z.shiftr c 10 = c / 1024)
        by (rewrite Z.shiftr_div_pow2 by lia; reflexivity).
      assert (Hm : Z.land c 1023 = c mod 1024)
        by (change 1023 with (Z.ones 10); rewrite Z.land_ones by lia;
            reflexivity).
      rewrite Hq, Hm.
      rewrite (scanstring_pair _ _ _ _ _ _ _ _
                 (55296 - 64 + c / 1024) (56320 + c mod 1024)).
      * f_equal. f_equal. unfold join_surrogates.
        Z.to_euclidean_division_equations. lia.
      * apply unhex4_hex4. Z.to_euclidean_division_equations. lia.
      * unfold high_surrogate. apply andb_true_intro.
        split; apply Z.leb_le; Z.to_euclidean_division_equations; lia.
      * apply unhex4_hex4. Z.to_euclidean_division_equations. lia.
      * unfold low_surrogate. apply andb_true_intro.
        split; apply Z.leb_le; Z.to_euclidean_division_equations; lia.
    + unfold hex4. cbn [app].
      apply scanstring_u.
      * apply unhex4_hex4. unfold scalar in Hc. lia.
      * unfold high_surrogate. apply andb_false_iff.
        unfold scalar in Hc.
        destruct (Z.leb_spec 55296 c); [right; apply Z.leb_gt; lia | now left].
Qed.

Lemma scanstring_escaped (s : str) :
  Forall scalar s ->
  scanstring (flat_map escape_char s ++ [34]) = Some s.
Proof.
  induction 1 as [|c s Hc _ IH]; [reflexivity|].
  cbn [flat_map]. rewrite <- app_assoc.
  now rewrite scanstring_escape_char, IH.
Qed.

(** JSON-decoding the JSON text of a well-formed str gives the str back. *)
Lemma json_loads_dumps (s : str) :
  Forall scalar s -> json_loads_str (json_dumps s) = Some s.
Proof.
  intros Hs. unfold json_loads_str.
  rewrite decode_utf8_ascii.
  - unfold json_dumps. change (34 =? 34) with true. cbv iota.
    now apply scanstring_escaped.
  - json_dumps_range.
Qed.

Lemma split_on_frame (p rest : bytes) :
  Forall (fun b => b <> 0) p ->
  split_on 0 (p ++ 0 :: rest) = p :: split_on 0 rest.
Proof.
  induction 1 as [|b p Hb _ IH]; [reflexivity|].
  cbn [app split_on]. apply Z.eqb_neq in Hb. now rewrite Hb, IH.
Qed.

(** Splitting the concatenated frames on NUL gives the JSON texts, in
    order, and an empty piece after the last NUL. *)
Lemma split_on_frames (fragments : list str) :
  split_on 0 (List.concat (map frame fragments)) =
  map json_dumps fragments ++ [[]].
Proof.
  induction fragments as [|t ts IH]; [reflexivity|].
  cbn [map List.concat app]. unfold frame at 1. rewrite <- app_assoc.
  cbn [app]. rewrite split_on_frame, IH; [reflexivity|].
  json_dumps_range.
Qed.

(** Two surrogate code points in a row are not text: their escapes read
    back as one character, which is why the fragments are taken to be
    sequences of scalar values below. *)
Example json_loads_dumps_surrogates :
  json_loads_str (json_dumps [55357; 56832]) = Some [128512].
Proof. reflexivity. Qed.

(** C4: on a body with [prompt] and [max_new_tokens] whose [streaming] is
    true, [generate] returns a chunked response with one chunk per
    fragment of the handle, in order, each the JSON text of the fragment
    followed by one NUL byte; splitting the concatenated chunks on NUL
    leaves one piece per fragment (and an empty piece after the last
    NUL), and JSON-decoding these pieces gives back the fragments, in
    order. *)
Theorem generate_streaming_frames
        (srv : Server) (e : GenerationExecutor) (d : dict)
        (log : list kwargs) (streaming prompt max_new_tokens : value)
        (p : Promise) :
  executor srv = Some e ->
  dict_get (lit "streaming") d = Some streaming ->
  truthy streaming = true ->
  dict_get (lit "prompt") d = Some prompt ->
  dict_get (lit "max_new_tokens") d = Some max_new_tokens ->
  generate_async e (generate_kwargs prompt max_new_tokens streaming)
    = inr p ->
  Forall (Forall scalar) (outputs p) ->
  exists chunks : list bytes,
    generate srv (VDict d) log =
      (inr {| status_code := 200; content := Chunked chunks None |},
       log ++ [generate_kwargs prompt max_new_tokens streaming])
    /\ chunks = map (fun fragment => json_dumps fragment ++ [0]) (outputs p)
    /\ exists pieces : list bytes,
         split_on 0 (List.concat chunks) = pieces ++ [[]]
         /\ map json_loads_str pieces = map Some (outputs p).
Proof.
  intros He Hs Ht Hp Hm Hcall Htext.
  exists (map frame (outputs p)). split; [|split; [reflexivity|]].
  - rewrite (generate_dict srv e d log He), Hp, Hm. cbv zeta.
    unfold pop_value. rewrite Hs, Hcall, Ht.
    now rewrite stream_results_frames.
  - exists (map json_dumps (outputs p)). split; [apply split_on_frames|].
    induction Htext as [|t ts Ht' _ IH]; [reflexivity|].
    cbn [map]. now rewrite json_loads_dumps, IH.
Qed.

Lemma generate_streaming_frames_witness :
  exists chunks : list bytes,
    generate demo_server
      (VDict [(lit "prompt", VStr (lit "Hi"));
              (lit "max_new_tokens", VInt 8);
              (lit "streaming", VBool true)]) [] =
      (inr {| status_code := 200; content := Chunked chunks None |},
       [] ++ [generate_kwargs (VStr (lit "Hi")) (VInt 8) (VBool true)])
    /\ chunks = map (fun fragment => json_dumps fragment ++ [0])
                    (outputs demo_promise)
    /\ exists pieces : list bytes,
         split_on 0 (List.concat chunks) = pieces ++ [[]]
         /\ map json_loads_str pieces = map Some (outputs demo_promise).
Proof.
  apply (generate_streaming_frames demo_server demo_executor
           [(lit "prompt", VStr (lit "Hi"));
            (lit "max_new_tokens", VInt 8);
            (lit "streaming", VBool true)]
           [] (VBool true) (VStr (lit "Hi")) (VInt 8) demo_promise);
    try reflexivity.
  repeat constructor; unfold scalar; lia.
Defined.

(** The chunks of the demo engine, byte by byte. *)
Example generate_streaming_demo :
  fst (generate demo_server
         (VDict [(lit "prompt", VStr (lit "Hi"));
                 (lit "max_new_tokens", VInt 8);
                 (lit "streaming", VBool true)]) []) =
  inr {| status_code := 200;
         content := Chunked [[34; 72; 101; 108; 34; 0]; [34; 108; 111; 34; 0]]
                            None |}.
Proof. reflexivity. Qed.

(** *** [POST /generate]: bodies and failures outside the happy path *)

(** A body that is not an object stops [generate] at the [pop]: a list has
    a [pop] of another arity (TypeError), the other values have none
    (AttributeError); the engine is not called. *)
Theorem generate_non_object_body
        (srv : Server) (e : GenerationExecutor) (body : value)
        (log : list kwargs) :
  executor srv = Some e ->
  (forall d, body <> VDict d) ->
  generate srv body log =
  (inl (match body with VList _ => TypeError | _ => AttributeError end), log).
Proof.
  intros He Hbody. unfold generate, assert_executor, bind. rewrite He.
  destruct body; try reflexivity.
  now destruct (Hbody d).
Qed.

Lemma generate_non_object_body_witness :
  generate demo_server (VList [VStr (lit "Hi")]) [] = (inl TypeError, [])
  /\ generate demo_server (VStr (lit "Hi")) [] = (inl AttributeError, []).
Proof.
  split.
  - apply (generate_non_object_body demo_server demo_executor
             (VList [VStr (lit "Hi")]) []); [reflexivity | discriminate].
  - apply (generate_non_object_body demo_server demo_executor
             (VStr (lit "Hi")) []); [reflexivity | discriminate].
Defined.

Lemma generate_no_executor (srv : Server) (body : value) (log : list kwargs) :
  executor srv = None ->
  generate srv body log = (inl AssertionError, log).
Proof.
  intros He. unfold generate, assert_executor, bind. now rewrite He.
Qed.

(** The engine calls of [generate], for every server and every body: one
    call when the executor is set and the body is an object with [prompt]
    and [max_new_tokens], none otherwise.  The call carries the two values
    as they are in the body, whatever their types, and the value of
    [streaming], or [False] when the body has none. *)
Theorem generate_engine_calls
        (srv : Server) (body : value) (log : list kwargs) :
  snd (generate srv body log) =
  log ++ match executor srv, body with
         | Some _, VDict d =>
             match dict_get (lit "prompt") d,
                   dict_get (lit "max_new_tokens") d with
             | Some p, Some m =>
                 [generate_kwargs p m
                    (pop_value (lit "streaming") (VBool false) d)]
             | _, _ => []
             end
         | _, _ => []
         end.
Proof.
  destruct (executor srv) as [e|] eqn:He.
  - destruct body;
      try (unfold generate, assert_executor, bind; rewrite He;
           now rewrite app_nil_r).
    rewrite (generate_dict srv e d log He).
    destruct (dict_get (lit "prompt") d) as [p|];
      [|now rewrite app_nil_r].
    destruct (dict_get (lit "max_new_tokens") d) as [m|];
      [|now rewrite app_nil_r].
    cbv zeta. destruct (generate_async e _) as [x|pr]; [reflexivity|].
    destruct (truthy _); [reflexivity|].
    destruct (await_completion pr); [reflexivity | apply JSONResponse_log].
  - rewrite (generate_no_executor srv body log He). now rewrite app_nil_r.
Qed.

(** An exception of the engine goes through [generate] unchanged, after
    the one call: when [generate_async] raises, and, for a non-streaming
    body, when the completion of the handle raises. *)
Theorem generate_engine_failure
        (srv : Server) (e : GenerationExecutor) (d : dict)
        (log : list kwargs) (prompt max_new_tokens : value) (x : exn) :
  executor srv = Some e ->
  dict_get (lit "prompt") d = Some prompt ->
  dict_get (lit "max_new_tokens") d = Some max_new_tokens ->
  let streaming := pop_value (lit "streaming") (VBool false) d in
  let kw := generate_kwargs prompt max_new_tokens streaming in
  generate_async e kw = inl x
  \/ (exists p, generate_async e kw = inr p
                /\ truthy streaming = false
                /\ await_completion p = Some x) ->
  generate srv (VDict d) log = (inl x, log ++ [kw]).
Proof.
  intros He Hp Hm streaming kw Hfail.
  rewrite (generate_dict srv e d log He), Hp, Hm. cbv zeta.
  fold streaming. fold kw.
  destruct Hfail as [Hcall | [p [Hcall [Hs Hdone]]]].
  - now rewrite Hcall.
  - now rewrite Hcall, Hs, Hdone.
Qed.

Lemma generate_engine_failure_witness :
  generate (server_of refusing_executor)
    (VDict [(lit "prompt", VStr (lit "Hi")); (lit "max_new_tokens", VInt 8)])
    [] =
    (inl (EngineError (lit "engine is down")),
     [] ++ [generate_kwargs (VStr (lit "Hi")) (VInt 8) (VBool false)])
  /\ generate (server_of breaking_executor)
       (VDict [(lit "prompt", VStr (lit "Hi"));
               (lit "max_new_tokens", VInt 8)]) [] =
     (inl (EngineError (lit "generation failed")),
      [] ++ [generate_kwargs (VStr (lit "Hi")) (VInt 8) (VBool false)]).
Proof.
  split.
  - apply (generate_engine_failure (server_of refusing_executor)
             refusing_executor
             [(lit "prompt", VStr (lit "Hi")); (lit "max_new_tokens", VInt 8)]
             [] (VStr (lit "Hi")) (VInt 8)); try reflexivity.
    left. reflexivity.
  - apply (generate_engine_failure (server_of breaking_executor)
             breaking_executor
             [(lit "prompt", VStr (lit "Hi")); (lit "max_new_tokens", VInt 8)]
             [] (VStr (lit "Hi")) (VInt 8)); try reflexivity.
    right. exists broken_promise. repeat split.
Defined.

(** A streaming body gets its chunked response whatever the fragments are
    and whatever the completion of the handle would do: [generate] does
    not wait for the completion, and no fragment, a lone surrogate
    included, makes the encoding of a chunk fail. *)
Theorem generate_streaming_total
        (srv : Server) (e : GenerationExecutor) (d : dict)
        (log : list kwargs) (prompt max_new_tokens : value) (p : Promise) :
  executor srv = Some e ->
  dict_get (lit "prompt") d = Some prompt ->
  dict_get (lit "max_new_tokens") d = Some max_new_tokens ->
  truthy (pop_value (lit "streaming") (VBool false) d) = true ->
  generate_async e
    (generate_kwargs prompt max_new_tokens
       (pop_value (lit "streaming") (VBool false) d)) = inr p ->
  fst (generate srv (VDict d) log) =
  inr {| status_code := 200;
         content :=
           Chunked (map (fun t => json_dumps t ++ [0]) (outputs p)) None |}.
Proof.
  intros He Hp Hm Hs Hcall.
  rewrite (generate_dict srv e d log He), Hp, Hm. cbv zeta.
  rewrite Hcall, Hs. now rewrite stream_results_frames.
Qed.

Lemma generate_streaming_total_witness :
  fst (generate (server_of breaking_executor)
         (VDict [(lit "prompt", VStr (lit "Hi"));
                 (lit "max_new_tokens", VInt 8);
                 (lit "streaming", VInt 1)]) []) =
  inr {| status_code := 200;
         content :=
           Chunked (map (fun t => json_dumps t ++ [0])
                        (outputs broken_promise)) None |}.
Proof.
  apply (generate_streaming_total (server_of breaking_executor)
           breaking_executor _ [] (VStr (lit "Hi")) (VInt 8) broken_promise);
    reflexivity.
Defined.

Lemma escaped_printable (s : str) :
  Forall printable (flat_map escape_char s).
Proof.
  induction s as [|c s IH]; [constructor|].
  cbn [flat_map]. apply Forall_app.
  split; [apply escape_char_printable | exact IH].
Qed.

(** The generator of the stream never stops on an exception and yields one
    chunk per output; a chunk is a quote, printable ASCII characters, a
    quote and one NUL: it is ASCII throughout and its only NUL is its last
    byte, whatever the text of the output is. *)
Theorem stream_results_chunks (outs : list str) :
  snd (stream_results outs) = None
  /\ List.length (fst (stream_results outs)) = List.length outs
  /\ Forall (fun chunk : bytes =>
               exists js : bytes,
                 chunk = 34 :: js ++ [34; 0] /\ Forall printable js)
            (fst (stream_results outs)).
Proof.
  rewrite stream_results_frames. cbn [fst snd].
  split; [reflexivity|]. split; [apply length_map|].
  apply Forall_forall. intros chunk Hin.
  apply in_map_iff in Hin as [t [<- _]].
  exists (flat_map escape_char t). split; [|apply escaped_printable].
  unfold frame, json_dumps. cbn [app]. now rewrite <- app_assoc.
Qed.

Lemma chat_completion_no_executor
      (repr : value -> str) (srv : Server) (body : value)
      (log : list kwargs) :
  executor srv = None ->
  chat_completion repr srv body log = (inl AssertionError, log).
Proof.
  intros He. unfold chat_completion, assert_executor, bind. now rewrite He.
Qed.

Lemma chat_completion_not_dict
      (repr : value -> str) (srv : Server) (e : GenerationExecutor)
      (body : value) (log : list kwargs) :
  executor srv = Some e ->
  (forall d, body <> VDict d) ->
  chat_completion repr srv body log =
  (inl (match body with VList _ => TypeError | _ => AttributeError end), log).
Proof.
  intros He Hbody. unfold chat_completion, assert_executor, bind. rewrite He.
  destruct body; try reflexivity.
  now destruct (Hbody d).
Qed.

Lemma py_iter_log (v : value) (log : list kwargs) :
  snd (py_iter v log) = log.
Proof. destruct v; reflexivity. Qed.

(** What one turn of the loop does, case by case. *)
Lemma chat_step_cases
      (repr : value -> str) (chat_prompt : str) (m : value)
      (log : list kwargs) :
  chat_step repr chat_prompt m log =
  match m with
  | VDict d =>
      match dict_get (lit "role") d with
      | None => (inl (KeyError (lit "role")), log)
      | Some r =>
          if speaks r then
            match dict_get (lit "content") d with
            | None => (inl (KeyError (lit "content")), log)
            | Some c => (inr (chat_prompt ++ template_piece repr r c), log)
            end
          else (inr chat_prompt, log)
      end
  | _ => (inl TypeError, log)
  end.
Proof.
  destruct m; try reflexivity.
  unfold chat_step, bind, py_getitem, ret, speaks, template_piece.
  destruct (dict_get (lit "role") d) as [r|]; [|reflexivity].
  destruct (eq_str r (lit "user")) eqn:Hu.
  - cbn [orb]. destruct (dict_get (lit "content") d) as [c|]; [|reflexivity].
    now rewrite (user_not_assistant r Hu).
  - cbn [orb]. destruct (eq_str r (lit "assistant")); [|reflexivity].
    now destruct (dict_get (lit "content") d).
Qed.

Lemma chat_step_ok
      (repr : value -> str) (chat_prompt : str) (m : value)
      (log : list kwargs) :
  message_error m = None ->
  exists piece,
    chat_step repr chat_prompt m log = (inr (chat_prompt ++ piece), log)
    /\ forall q log', chat_step repr q m log' = (inr (q ++ piece), log').
Proof.
  intros Hok.
  assert (H : exists piece, forall q log',
               chat_step repr q m log' = (inr (q ++ piece), log')).
  { destruct m; try discriminate Hok. unfold message_error in Hok.
    destruct (dict_get (lit "role") d) as [r|] eqn:Hr; [|discriminate Hok].
    destruct (speaks r) eqn:Hsp.
    - destruct (dict_get (lit "content") d) as [c|] eqn:Hc;
        [|discriminate Hok].
      exists (template_piece repr r c). intros q log'.
      now rewrite chat_step_cases, Hr, Hsp, Hc.
    - exists []. intros q log'.
      now rewrite chat_step_cases, Hr, Hsp, app_nil_r. }
  destruct H as [piece H]. exists piece. split; [apply H | exact H].
Qed.

Lemma chat_step_error
      (repr : value -> str) (chat_prompt : str) (m : value)
      (log : list kwargs) (x : exn) :
  message_error m = Some x ->
  chat_step repr chat_prompt m log = (inl x, log).
Proof.
  intros Hx. rewrite chat_step_cases.
  destruct m; try (injection Hx as <-; reflexivity).
  unfold message_error in Hx.
  destruct (dict_get (lit "role") d) as [r|];
    [|injection Hx as <-; reflexivity].
  destruct (speaks r); [|discriminate Hx].
  destruct (dict_get (lit "content") d); [discriminate Hx|].
  now injection Hx as <-.
Qed.

Lemma chat_loop_cons
      (repr : value -> str) (chat_prompt : str) (m : value)
      (ms : list value) (log : list kwargs) :
  chat_loop repr chat_prompt (m :: ms) log =
  match chat_step repr chat_prompt m log with
  | (inl x, log') => (inl x, log')
  | (inr q, log') => chat_loop repr q ms log'
  end.
Proof. reflexivity. Qed.

(** The loop leaves the log alone and only adds to the prompt. *)
Lemma chat_loop_outcome (repr : value -> str) (ms : list value) :
  forall (chat_prompt : str) (log : list kwargs),
    (exists x, chat_loop repr chat_prompt ms log = (inl x, log))
    \/ (exists suffix,
           chat_loop repr chat_prompt ms log =
           (inr (chat_prompt ++ suffix), log)).
Proof.
  induction ms as [|m ms IH]; intros chat_prompt log.
  - right. exists []. cbn [chat_loop]. unfold ret. now rewrite app_nil_r.
  - rewrite chat_loop_cons.
    destruct (message_error m) as [x|] eqn:Hm.
    + left. exists x. now rewrite (chat_step_error repr chat_prompt m log x Hm).
    + destruct (chat_step_ok repr chat_prompt m log Hm) as [piece [Hstep _]].
      rewrite Hstep.
      destruct (IH (chat_prompt ++ piece) log) as [[x Hx]|[suffix Hs]].
      * left. now exists x.
      * right. exists (piece ++ suffix). now rewrite Hs, app_assoc.
Qed.

(** *** [POST /v1/chat/completions]: bodies and failures outside the happy
    path *)

(** A body that is not an object stops [chat_completion] at the [pop], as
    it stops [generate]: TypeError for a list, AttributeError for the
    other values, and no engine call. *)
Theorem chat_completion_non_object_body
        (repr : value -> str) (srv : Server) (e : GenerationExecutor)
        (body : value) (log : list kwargs) :
  executor srv = Some e ->
  (forall d, body <> VDict d) ->
  chat_completion repr srv body log =
  (inl (match body with VList _ => TypeError | _ => AttributeError end), log).
Proof. apply chat_completion_not_dict. Qed.

Lemma chat_completion_non_object_body_witness :
  chat_completion demo_repr demo_server (VList []) [] = (inl TypeError, [])
  /\ chat_completion demo_repr demo_server VNone [] = (inl AttributeError, []).
Proof.
  split.
  - apply (chat_completion_non_object_body demo_repr demo_server
             demo_executor (VList []) []); [reflexivity | discriminate].
  - apply (chat_completion_non_object_body demo_repr demo_server
             demo_executor VNone []); [reflexivity | discriminate].
Defined.

(** [chat_completion] calls the engine at most once, for every server and
    every body; a call it makes has for prompt a str that starts with
    ["<s> "], for [max_new_tokens] the [max_tokens] of the body as it is,
    and for [streaming] the value of the body, which is then a falsy one
    ([False] when the body has none). *)
Theorem chat_completion_engine_calls
        (repr : value -> str) (srv : Server) (body : value)
        (log : list kwargs) :
  snd (chat_completion repr srv body log) = log
  \/ exists (d : dict) (suffix : str) (max_tokens : value),
       body = VDict d
       /\ dict_get (lit "max_tokens") d = Some max_tokens
       /\ truthy (pop_value (lit "streaming") (VBool false) d) = false
       /\ snd (chat_completion repr srv body log) =
          log ++ [generate_kwargs (VStr (lit "<s> " ++ suffix)) max_tokens
                    (pop_value (lit "streaming") (VBool false) d)].
Proof.
  destruct (executor srv) as [e|] eqn:He;
    [|left; now rewrite (chat_completion_no_executor repr srv body log He)].
  destruct body;
    try (left; rewrite (chat_completion_not_dict repr srv e _ log He);
         [reflexivity | discriminate]).
  rewrite (chat_completion_dict repr srv e d log He). cbv zeta.
  destruct (truthy _) eqn:Hs; [left; reflexivity|].
  destruct (dict_get (lit "messages") d) as [mv|]; [|left; reflexivity].
  pose proof (py_iter_log mv log) as Hit.
  destruct (py_iter mv log) as [[x|ms] log']; cbn [snd] in Hit; subst log';
    [left; reflexivity|].
  destruct (chat_loop_outcome repr ms (lit "<s> ") log)
    as [[x Hloop]|[suffix Hloop]]; rewrite Hloop; [left; reflexivity|].
  destruct (dict_get (lit "max_tokens") d) as [mt|] eqn:Hmt;
    [|left; reflexivity].
  right. exists d, suffix, mt.
  split; [reflexivity|]. split; [exact Hmt|]. split; [exact Hs|].
  destruct (generate_async e _) as [x|pr]; [reflexivity|].
  destruct (await_completion pr); [reflexivity | apply JSONResponse_log].
Qed.

Lemma chat_loop_first_error
      (repr : value -> str) (good : list value) (bad : value)
      (rest : list value) (x : exn) :
  Forall (fun m => message_error m = None) good ->
  message_error bad = Some x ->
  forall (chat_prompt : str) (log : list kwargs),
    chat_loop repr chat_prompt (good ++ bad :: rest) log = (inl x, log).
Proof.
  intros Hgood Hbad.
  induction Hgood as [|m good Hm _ IH]; intros chat_prompt log.
  - cbn [app]. now rewrite chat_loop_cons, (chat_step_error repr _ bad log x).
  - cbn [app]. rewrite chat_loop_cons.
    destruct (chat_step_ok repr chat_prompt m log Hm) as [piece [Hstep _]].
    rewrite Hstep. apply IH.
Qed.

(** The first malformed message decides the outcome of a non-streaming
    request: TypeError for a message that is no object, KeyError for a
    missing role, or for the missing content of a user or an assistant.
    The messages after it and [max_tokens] are not looked at, and the
    engine is not called. *)
Theorem chat_completion_malformed_message
        (repr : value -> str) (srv : Server) (e : GenerationExecutor)
        (d : dict) (log : list kwargs) (good : list value) (bad : value)
        (rest : list value) (x : exn) :
  executor srv = Some e ->
  truthy (pop_value (lit "streaming") (VBool false) d) = false ->
  dict_get (lit "messages") d = Some (VList (good ++ bad :: rest)) ->
  Forall (fun m => message_error m = None) good ->
  message_error bad = Some x ->
  chat_completion repr srv (VDict d) log = (inl x, log).
Proof.
  intros He Hs Hms Hgood Hbad.
  rewrite (chat_completion_dict repr srv e d log He). cbv zeta.
  rewrite Hs, Hms. unfold py_iter, ret.
  now rewrite (chat_loop_first_error repr good bad rest x Hgood Hbad).
Qed.

Lemma chat_completion_malformed_message_witness :
  chat_completion demo_repr demo_server
    (VDict [(lit "messages",
             VList [message "user" (lit "Hi");
                    VDict [(lit "role", VStr (lit "assistant"))];
                    VInt 3])]) [] =
  (inl (KeyError (lit "content")), []).
Proof.
  apply (chat_completion_malformed_message demo_repr demo_server
           demo_executor _ [] [message "user" (lit "Hi")]
           (VDict [(lit "role", VStr (lit "assistant"))]) [VInt 3]);
    try reflexivity.
  repeat constructor.
Defined.

Lemma chat_loop_well_formed
      (repr : value -> str) (ms : list value) :
  Forall (fun m => message_error m = None) ms ->
  forall (chat_prompt : str) (log : list kwargs),
  exists suffix,
    chat_loop repr chat_prompt ms log = (inr (chat_prompt ++ suffix), log).
Proof.
  induction 1 as [|m ms Hm _ IH]; intros chat_prompt log.
  - exists []. cbn [chat_loop]. unfold ret. now rewrite app_nil_r.
  - rewrite chat_loop_cons.
    destruct (chat_step_ok repr chat_prompt m log Hm) as [piece [Hstep _]].
    rewrite Hstep. destruct (IH (chat_prompt ++ piece) log) as [suffix Hs].
    exists (piece ++ suffix). now rewrite Hs, app_assoc.
Qed.

(** A non-streaming body without [messages] raises KeyError for
    [messages], with or without [max_tokens]; a body whose messages are
    well formed and that has no [max_tokens] raises KeyError for
    [max_tokens], once the messages have been gone through; in both cases
    the engine is not called. *)
Theorem chat_completion_missing_field
        (repr : value -> str) (srv : Server) (e : GenerationExecutor)
        (d : dict) (log : list kwargs) :
  executor srv = Some e ->
  truthy (pop_value (lit "streaming") (VBool false) d) = false ->
  (dict_get (lit "messages") d = None ->
   chat_completion repr srv (VDict d) log =
   (inl (KeyError (lit "messages")), log))
  /\ (forall ms,
         dict_get (lit "messages") d = Some (VList ms) ->
         Forall (fun m => message_error m = None) ms ->
         dict_get (lit "max_tokens") d = None ->
         chat_completion repr srv (VDict d) log =
         (inl (KeyError (lit "max_tokens")), log)).
Proof.
  intros He Hs. split.
  - intros Hms. rewrite (chat_completion_dict repr srv e d log He).
    cbv zeta. now rewrite Hs, Hms.
  - intros ms Hms Hok Hmt.
    rewrite (chat_completion_dict repr srv e d log He). cbv zeta.
    rewrite Hs, Hms, Hmt. unfold py_iter, ret.
    destruct (chat_loop_well_formed repr ms Hok (lit "<s> ") log)
      as [suffix Hloop].
    now rewrite Hloop.
Qed.

Lemma chat_completion_missing_field_witness :
  chat_completion demo_repr demo_server (VDict []) [] =
    (inl (KeyError (lit "messages")), [])
  /\ chat_completion demo_repr demo_server
       (VDict [(lit "messages", VList [message "user" (lit "Hi")])]) [] =
     (inl (KeyError (lit "max_tokens")), []).
Proof.
  split.
  - apply (chat_completion_missing_field demo_repr demo_server demo_executor
             [] []); reflexivity.
  - apply (proj2 (chat_completion_missing_field demo_repr demo_server
                    demo_executor
                    [(lit "messages", VList [message "user" (lit "Hi")])] []
                    eq_refl eq_refl) [message "user" (lit "Hi")]);
      try reflexivity.
    repeat constructor.
Defined.

(** The loop goes past the messages whose role is neither [user] nor
    [assistant]: taking them out of the list changes nothing, prompt or
    exception. *)
Theorem chat_loop_skips_other_roles
        (repr : value -> str) (ms : list value) :
  forall (chat_prompt : str) (log : list kwargs),
    chat_loop repr chat_prompt ms log =
    chat_loop repr chat_prompt (filter (fun m => negb (skipped m)) ms) log.
Proof.
  induction ms as [|m ms IH]; intros chat_prompt log; [reflexivity|].
  cbn [filter]. destruct (skipped m) eqn:Hsk; cbn [negb].
  - rewrite chat_loop_cons, chat_step_cases.
    destruct m; try discriminate Hsk. unfold skipped in Hsk.
    destruct (dict_get (lit "role") d) as [r|]; [|discriminate Hsk].
    apply negb_true_iff in Hsk. rewrite Hsk. apply IH.
  - rewrite !chat_loop_cons.
    destruct (chat_step repr chat_prompt m log) as [[x|q] log'];
      [reflexivity | apply IH].
Qed.

(** The loop over a conversation in two parts is the loop over the first
    part, then the loop over the second from the prompt reached; an
    exception in the first part is the outcome. *)
Theorem chat_loop_app
        (repr : value -> str) (ms1 ms2 : list value) :
  forall (chat_prompt : str) (log : list kwargs),
    chat_loop repr chat_prompt (ms1 ++ ms2) log =
    match chat_loop repr chat_prompt ms1 log with
    | (inl x, log') => (inl x, log')
    | (inr q, log') => chat_loop repr q ms2 log'
    end.
Proof.
  induction ms1 as [|m ms1 IH]; intros chat_prompt log; [reflexivity|].
  cbn [app]. rewrite !chat_loop_cons.
  destruct (chat_step repr chat_prompt m log) as [[x|q] log'];
    [reflexivity | apply IH].
Qed.

(** When [messages] is not a list: an empty str and an empty object are
    gone through as no message at all, and the engine gets the bare prompt
    ["<s> "]; any other value raises TypeError (a number, a boolean or
    null cannot be iterated; the characters of a str and the keys of an
    object are no messages) and the engine is not called. *)
Theorem chat_completion_messages_not_a_list
        (repr : value -> str) (srv : Server) (e : GenerationExecutor)
        (d : dict) (log : list kwargs) (messages max_tokens : value) :
  executor srv = Some e ->
  truthy (pop_value (lit "streaming") (VBool false) d) = false ->
  dict_get (lit "messages") d = Some messages ->
  (forall l, messages <> VList l) ->
  dict_get (lit "max_tokens") d = Some max_tokens ->
  match messages with
  | VStr [] | VDict [] =>
      snd (chat_completion repr srv (VDict d) log) =
      log ++ [generate_kwargs (VStr (lit "<s> ")) max_tokens
                (pop_value (lit "streaming") (VBool false) d)]
  | _ => chat_completion repr srv (VDict d) log = (inl TypeError, log)
  end.
Proof.
  intros He Hs Hms Hnl Hmt.
  rewrite (chat_completion_dict repr srv e d log He). cbv zeta.
  rewrite Hs, Hms, Hmt.
  destruct messages as [| b | n | f | [|c s] | l | [|[k v] d']];
    try reflexivity.
  - cbn [py_iter map]. unfold ret. cbv beta iota.
    change (chat_loop repr (lit "<s> ") [] log)
      with (@inr exn str (lit "<s> "), log). cbv beta iota.
    destruct (generate_async e _) as [x|pr]; [reflexivity|].
    destruct (await_completion pr); [reflexivity | apply JSONResponse_log].
  - now destruct (Hnl l).
  - cbn [py_iter map]. unfold ret. cbv beta iota.
    change (chat_loop repr (lit "<s> ") [] log)
      with (@inr exn str (lit "<s> "), log). cbv beta iota.
    destruct (generate_async e _) as [x|pr]; [reflexivity|].
    destruct (await_completion pr); [reflexivity | apply JSONResponse_log].
Qed.

Lemma chat_completion_messages_not_a_list_witness :
  snd (chat_completion demo_repr demo_server
         (VDict [(lit "messages", VDict []); (lit "max_tokens", VInt 16)])
         []) =
    [] ++ [generate_kwargs (VStr (lit "<s> ")) (VInt 16) (VBool false)]
  /\ chat_completion demo_repr demo_server
       (VDict [(lit "messages", VStr (lit "Hi"));
               (lit "max_tokens", VInt 16)]) [] =
     (inl TypeError, []).
Proof.
  split.
  - apply (chat_completion_messages_not_a_list demo_repr demo_server
             demo_executor
             [(lit "messages", VDict []); (lit "max_tokens", VInt 16)] []
             (VDict []) (VInt 16)); try reflexivity.
    discriminate.
  - apply (chat_completion_messages_not_a_list demo_repr demo_server
             demo_executor
             [(lit "messages", VStr (lit "Hi")); (lit "max_tokens", VInt 16)]
             [] (VStr (lit "Hi")) (VInt 16)); try reflexivity.
    discriminate.
Defined.

(** An exception of the engine goes through [chat_completion] unchanged,
    after the one call: when [generate_async] raises, and when the
    completion of the handle raises. *)
Theorem chat_completion_engine_failure
        (repr : value -> str) (srv : Server) (e : GenerationExecutor)
        (d : dict) (log : list kwargs) (ms : list value)
        (typed : list (value * value)) (max_tokens : value) (x : exn) :
  executor srv = Some e ->
  non_streaming d = true ->
  dict_get (lit "messages") d = Some (VList ms) ->
  map message_of ms = map Some typed ->
  dict_get (lit "max_tokens") d = Some max_tokens ->
  let kw := generate_kwargs (VStr (chat_template repr typed)) max_tokens
              (VBool false) in
  generate_async e kw = inl x
  \/ (exists p, generate_async e kw = inr p /\ await_completion p = Some x) ->
  chat_completion repr srv (VDict d) log = (inl x, log ++ [kw]).
Proof.
  intros He Hns Hms Htyped Hmt kw Hfail.
  rewrite (chat_completion_dict repr srv e d log He). cbv zeta.
  rewrite (non_streaming_pop d Hns), Hms, Hmt. simpl truthy. cbv iota.
  unfold py_iter, ret.
  rewrite (chat_loop_messages repr ms typed (lit "<s> ") log Htyped).
  fold (chat_template repr typed). fold kw.
  destruct Hfail as [Hcall | [p [Hcall Hdone]]].
  - now rewrite Hcall.
  - now rewrite Hcall, Hdone.
Qed.

Lemma chat_completion_engine_failure_witness :
  chat_completion demo_repr (server_of refusing_executor) hi_request [] =
    (inl (EngineError (lit "engine is down")),
     [] ++ [generate_kwargs (VStr (lit "<s> [INST] Hi [/INST] ")) (VInt 16)
              (VBool false)])
  /\ chat_completion demo_repr (server_of breaking_executor) hi_request [] =
     (inl (EngineError (lit "generation failed")),
      [] ++ [generate_kwargs (VStr (lit "<s> [INST] Hi [/INST] ")) (VInt 16)
               (VBool false)]).
Proof.
  split.
  - apply (chat_completion_engine_failure demo_repr
             (server_of refusing_executor) refusing_executor _ []
             [message "user" (lit "Hi")]
             [(VStr (lit "user"), VStr (lit "Hi"))] (VInt 16));
      try reflexivity.
    left. reflexivity.
  - apply (chat_completion_engine_failure demo_repr
             (server_of breaking_executor) breaking_executor _ []
             [message "user" (lit "Hi")]
             [(VStr (lit "user"), VStr (lit "Hi"))] (VInt 16));
      try reflexivity.
    right. exists broken_promise. split; reflexivity.
Defined.

Lemma chat_step_user
      (repr : value -> str) (chat_prompt c : str) (log : list kwargs) :
  chat_step repr chat_prompt (message "user" c) log =
  (inr (chat_prompt ++ lit "[INST] " ++ c ++ lit " [/INST] "), log).
Proof. reflexivity. Qed.

Lemma chat_step_assistant
      (repr : value -> str) (chat_prompt c : str) (log : list kwargs) :
  chat_step repr chat_prompt (message "assistant" c) log =
  (inr (chat_prompt ++ c ++ lit " </s> "), log).
Proof. reflexivity. Qed.

(** Two bodies with the same [streaming] and [max_tokens] whose messages
    lead the loop to the same outcome get the same result. *)
Lemma chat_completion_same_loop
      (repr : value -> str) (srv : Server) (d d' : dict)
      (ms ms' : list value) (log : list kwargs) :
  pop_value (lit "streaming") (VBool false) d
  = pop_value (lit "streaming") (VBool false) d' ->
  dict_get (lit "max_tokens") d = dict_get (lit "max_tokens") d' ->
  dict_get (lit "messages") d = Some (VList ms) ->
  dict_get (lit "messages") d' = Some (VList ms') ->
  chat_loop repr (lit "<s> ") ms log = chat_loop repr (lit "<s> ") ms' log ->
  chat_completion repr srv (VDict d) log
  = chat_completion repr srv (VDict d') log.
Proof.
  intros Hs Hmt Hms Hms' Hloop.
  destruct (executor srv) as [e|] eqn:He.
  - rewrite !(chat_completion_dict repr srv e _ log He). cbv zeta.
    rewrite Hs, Hmt, Hms, Hms'. unfold py_iter, ret. now rewrite Hloop.
  - now rewrite !(chat_completion_no_executor repr srv _ log He).
Qed.

(** The contents go into the prompt as they are, tags included: a single
    user message whose content holds the closing and opening tags gets the
    very result of the conversation of three turns it spells out. *)
Theorem chat_completion_tags_not_escaped
        (repr : value -> str) (srv : Server) (a b c : str)
        (max_tokens : value) (log : list kwargs) :
  chat_completion repr srv
    (VDict [(lit "messages",
             VList [message "user"
                      (a ++ lit " [/INST] " ++ b ++ lit " </s> [INST] " ++ c)]);
            (lit "max_tokens", max_tokens)]) log
  = chat_completion repr srv
      (VDict [(lit "messages",
               VList [message "user" a; message "assistant" b;
                      message "user" c]);
              (lit "max_tokens", max_tokens)]) log.
Proof.
  eapply chat_completion_same_loop; try reflexivity.
  rewrite !chat_loop_cons, !chat_step_user.
  rewrite chat_loop_cons, chat_step_assistant.
  rewrite chat_loop_cons, chat_step_user.
  cbn [chat_loop]. unfold ret. f_equal. f_equal.
  rewrite <- !app_assoc. reflexivity.
Qed.

(** A handler that returns a response returns it with the status 200: no
    handler answers an error status, whatever the server and the body
    are. *)
Theorem handlers_answer_200
        (repr : value -> str) (srv : Server) (body : value)
        (log : list kwargs) (resp : Response) :
  fst (health srv log) = inr resp
  \/ fst (show_available_models srv log) = inr resp
  \/ fst (generate srv body log) = inr resp
  \/ fst (chat_completion repr srv body log) = inr resp ->
  status_code resp = 200.
Proof.
  intros [H|[H|[H|H]]].
  - now injection H as <-.
  - now injection H as <-.
  - destruct (executor srv) as [e|] eqn:He;
      [|now rewrite (generate_no_executor srv body log He) in H].
    destruct body;
      try (unfold generate, assert_executor, bind in H; rewrite He in H;
           discriminate H).
    rewrite (generate_dict srv e d log He) in H.
    destruct (dict_get (lit "prompt") d); [|discriminate H].
    destruct (dict_get (lit "max_new_tokens") d); [|discriminate H].
    cbv zeta in H. destruct (generate_async e _) as [x|pr]; [discriminate H|].
    destruct (truthy _); [now injection H as <-|].
    destruct (await_completion pr); [discriminate H|].
    now rewrite (JSONResponse_returns _ _ resp H).
  - destruct (executor srv) as [e|] eqn:He;
      [|now rewrite (chat_completion_no_executor repr srv body log He) in H].
    destruct body;
      try (rewrite (chat_completion_not_dict repr srv e _ log He) in H;
           [discriminate H | discriminate]).
    rewrite (chat_completion_dict repr srv e d log He) in H. cbv zeta in H.
    destruct (truthy _); [now injection H as <-|].
    destruct (dict_get (lit "messages") d) as [mv|]; [|discriminate H].
    destruct (py_iter mv log) as [[x|ms] log']; [discriminate H|].
    destruct (chat_loop repr (lit "<s> ") ms log') as [[x|cp] log''];
      [discriminate H|].
    destruct (dict_get (lit "max_tokens") d); [|discriminate H].
    destruct (generate_async e _) as [x|pr]; [discriminate H|].
    destruct (await_completion pr); [discriminate H|].
    now rewrite (JSONResponse_returns _ _ resp H).
Qed.

Lemma handlers_answer_200_witness :
  fst (chat_completion demo_repr demo_server
         (VDict [(lit "streaming", VBool true)]) []) =
    inr {| status_code := 200; content := Json streaming_unsupported |}
  /\ status_code
       {| status_code := 200; content := Json streaming_unsupported |} = 200.
Proof.
  split; [reflexivity|].
  apply (handlers_answer_200 demo_repr demo_server
           (VDict [(lit "streaming", VBool true)]) []).
  right. right. right. reflexivity.
Defined.

(** The truthiness of [streaming] alone decides the kind of the response
    of [generate]: a truthy value (a number other than zero, a non-empty
    str, ...) gets the chunked stream, without failure; no [streaming] or
    a falsy one gets the object with the one field [text]. *)
Theorem generate_response_kind
        (srv : Server) (d : dict) (log : list kwargs) (resp : Response) :
  fst (generate srv (VDict d) log) = inr resp ->
  if truthy (pop_value (lit "streaming") (VBool false) d) then
    exists chunks, content resp = Chunked chunks None
  else
    exists t, content resp = Json (VDict [(lit "text", VStr t)]).
Proof.
  intros H.
  destruct (executor srv) as [e|] eqn:He;
    [|now rewrite (generate_no_executor srv _ log He) in H].
  rewrite (generate_dict srv e d log He) in H.
  destruct (dict_get (lit "prompt") d); [|discriminate H].
  destruct (dict_get (lit "max_new_tokens") d); [|discriminate H].
  cbv zeta in H. destruct (generate_async e _) as [x|pr]; [discriminate H|].
  destruct (truthy _).
  - injection H as <-. rewrite stream_results_frames.
    now exists (map frame (outputs pr)).
  - destruct (await_completion pr); [discriminate H|].
    rewrite (JSONResponse_returns _ _ resp H). now exists (text pr).
Qed.

Lemma generate_response_kind_witness :
  exists chunks,
    content {| status_code := 200;
               content := Chunked [[34; 72; 101; 108; 34; 0];
                                   [34; 108; 111; 34; 0]] None |}
    = Chunked chunks None.
Proof.
  apply (generate_response_kind demo_server
           [(lit "prompt", VStr (lit "Hi")); (lit "max_new_tokens", VInt 8);
            (lit "streaming", VStr (lit "false"))] []).
  reflexivity.
Defined.

(** *** Responses that cannot be rendered *)

Lemma utf8_char_surrogate (c : Z) : 55296 <= c <= 57343 -> utf8_char c = None.
Proof.
  intros Hc. unfold utf8_char.
  replace (c <? 128) with false by (symmetry; apply Z.ltb_ge; lia).
  replace (c <? 2048) with false by (symmetry; apply Z.ltb_ge; lia).
  replace ((55296 <=? c) && (c <=? 57343)) with true; [reflexivity|].
  symmetry. apply andb_true_intro. split; apply Z.leb_le; lia.
Qed.

(** A str that holds a surrogate cannot be encoded. *)
Lemma encodable_surrogate (s : str) (c : Z) :
  In c s -> 55296 <= c <= 57343 -> encodable s = false.
Proof.
  intros Hin Hc. unfold encodable.
  assert (H : encode_utf8 s = inl UnicodeEncodeError).
  { induction s as [|c' s IH]; [destruct Hin|].
    cbn [encode_utf8]. destruct Hin as [->|Hin].
    - now rewrite (utf8_char_surrogate c Hc).
    - rewrite (IH Hin). now destruct (utf8_char c'). }
  now rewrite H.
Qed.

(** When the text of the completed handle holds a surrogate, the answer
    of a non-streaming [generate] cannot be rendered: [generate] raises
    UnicodeEncodeError, after the one engine call, where the streaming
    path would have written the same text as an escape. *)
Theorem generate_text_not_encodable
        (srv : Server) (e : GenerationExecutor) (d : dict)
        (log : list kwargs) (prompt max_new_tokens : value) (p : Promise)
        (c : Z) :
  executor srv = Some e ->
  non_streaming d = true ->
  dict_get (lit "prompt") d = Some prompt ->
  dict_get (lit "max_new_tokens") d = Some max_new_tokens ->
  generate_async e (generate_kwargs prompt max_new_tokens (VBool false))
    = inr p ->
  await_completion p = None ->
  In c (text p) ->
  55296 <= c <= 57343 ->
  generate srv (VDict d) log =
  (inl UnicodeEncodeError,
   log ++ [generate_kwargs prompt max_new_tokens (VBool false)]).
Proof.
  intros He Hns Hp Hm Hcall Hdone Hin Hc.
  rewrite (generate_dict srv e d log He), Hp, Hm.
  cbv zeta. rewrite (non_streaming_pop d Hns), Hcall. simpl truthy. cbv iota.
  rewrite Hdone. unfold JSONResponse, bind, render.
  cbn [floats_finite strs_encodable forallb fst snd negb].
  rewrite (encodable_surrogate (text p) c Hin Hc).
  now rewrite andb_false_r.
Qed.

Lemma generate_text_not_encodable_witness :
  generate (server_of surrogate_executor)
    (VDict [(lit "prompt", VStr (lit "Hi")); (lit "max_new_tokens", VInt 8)])
    [] =
  (inl UnicodeEncodeError,
   [] ++ [generate_kwargs (VStr (lit "Hi")) (VInt 8) (VBool false)]).
Proof.
  apply (generate_text_not_encodable (server_of surrogate_executor)
           surrogate_executor
           [(lit "prompt", VStr (lit "Hi")); (lit "max_new_tokens", VInt 8)]
           [] (VStr (lit "Hi")) (VInt 8) surrogate_promise 55357);
    try reflexivity.
  - left. reflexivity.
  - lia.
Defined.

(** The same for [chat_completion]: with a finite clock, a generated text
    that holds a surrogate makes the handler raise UnicodeEncodeError
    after the one engine call. *)
Theorem chat_completion_text_not_encodable
        (repr : value -> str) (srv : Server) (e : GenerationExecutor)
        (d : dict) (log : list kwargs) (ms : list value)
        (typed : list (value * value)) (max_tokens : value) (p : Promise)
        (c : Z) :
  executor srv = Some e ->
  non_streaming d = true ->
  dict_get (lit "messages") d = Some (VList ms) ->
  map message_of ms = map Some typed ->
  dict_get (lit "max_tokens") d = Some max_tokens ->
  generate_async e
    (generate_kwargs (VStr (chat_template repr typed)) max_tokens
       (VBool false)) = inr p ->
  await_completion p = None ->
  PrimFloat.is_finite (time_time srv) = true ->
  In c (text p) ->
  55296 <= c <= 57343 ->
  chat_completion repr srv (VDict d) log =
  (inl UnicodeEncodeError,
   log ++ [generate_kwargs (VStr (chat_template repr typed)) max_tokens
             (VBool false)]).
Proof.
  intros He Hns Hms Htyped Hmt Hcall Hdone Hclock Hin Hc.
  rewrite (chat_completion_dict repr srv e d log He). cbv zeta.
  rewrite (non_streaming_pop d Hns), Hms, Hmt. simpl truthy. cbv iota.
  unfold py_iter, ret.
  rewrite (chat_loop_messages repr ms typed (lit "<s> ") log Htyped).
  fold (chat_template repr typed). rewrite Hcall, Hdone.
  unfold JSONResponse, bind, render, chat_completion_object.
  cbn [floats_finite strs_encodable forallb fst snd].
  rewrite Hclock, (encodable_surrogate (text p) c Hin Hc).
  reflexivity.
Qed.

Lemma chat_completion_text_not_encodable_witness :
  chat_completion demo_repr (server_of surrogate_executor) hi_request [] =
  (inl UnicodeEncodeError,
   [] ++ [generate_kwargs (VStr (lit "<s> [INST] Hi [/INST] ")) (VInt 16)
            (VBool false)]).
Proof.
  apply (chat_completion_text_not_encodable demo_repr
           (server_of surrogate_executor) surrogate_executor _ []
           [message "user" (lit "Hi")]
           [(VStr (lit "user"), VStr (lit "Hi"))] (VInt 16)
           surrogate_promise 55357); try reflexivity.
  - left. reflexivity.
  - lia.
Defined.
